(** * rbjs: the recording bot of [src/bot.js]

    A shallow embedding of the [Bot] class, of [apiResponse] and of the
    administrative routes, followed by the properties of the
    reconciliation loop.

    Modelling conventions.
    - The bot object and the part of its environment it acts on (the
      configuration file, the child processes, the pending timers, the
      log) form one [State]; every method is a function on it that
      either returns or throws (the monad [M]).
    - [this.streamers] is a JavaScript object used as a dictionary. Its
      own properties are a [gmap string Streamer] ([Object.keys] is the
      domain, listed in the order of [elements] and not, as JavaScript
      does, in the order of insertion). [this.streamers[name]] also
      finds what every object inherits from [Object.prototype]
      ("constructor", "toString", "__proto__", ...): these objects, and
      what the bot writes on them, are the [inherited] part of the
      state.
    - Of the four properties of a record, [pauseStreamer] and
      [resumeStreamer] write [paused] without asking for an own record,
      so that [paused] can be written on [Object.prototype] itself
      (through the name "__proto__"); from then on every object inherits
      it, and [this.streamers["paused"]] is a boolean. The model follows
      this. [recording], [proc] and [meta] are written by
      [updateStreamer] and by the observers of the process it spawned,
      and [run] calls [updateStreamer] on own keys only: the model keeps
      what they would write on an inherited object, and lets the
      objects named in [Object_prototype_names] inherit it from
      [Object.prototype], but does not make "recording", "proc" and
      "meta" inherited names in turn, and gives the boolean under
      "paused" no [recording], [proc] or [meta].
    - The configuration is typed: [streamers], when present, is an array
      of strings, [checkInterval] an integer of less than 22 digits;
      [JSON.parse] of the file gives a configuration, [null], or fails.
      The [streamer] parameter of a request is a string or is missing.
    - A [ChildProcess] object is shared between the registry and the
      event loop, so the processes live in a table indexed by process
      handle and a record only holds the handle.
    - [async] methods are cut at their [await]: [run_sync] is [run] up to
      [Promise.all], [updateStreamer_k] is [updateStreamer] after the
      probe has settled, [run_finish] is [run] after [Promise.all]. *)

From stdpp Require Import gmap strings list fin_maps.
From Stdlib Require Import ZArith.

Open Scope string_scope.
Open Scope list_scope.

(** ** Data *)

(** [response.data] of the status probe: [null], on which a property
    access throws, or a value whose [room_status] property is a string
    or is missing. *)
Inductive jsdata :=
  | DNullish
  | DObject (room_status : option string).

(** What [axios.get] settles with. *)
Inductive axios_result :=
  | AxiosRejected
  | AxiosResolved (d : jsdata).

(** The value of [getInfo], stored in [meta]: [false] or the payload. *)
Inductive info_t :=
  | IFalse
  | IData (d : jsdata).

(** The [proc] field: [null] (fresh or reset by the tick), [false] (reset
    by an observer) or a child process. *)
Inductive proc_t :=
  | PNull
  | PFalse
  | PChild (pid : nat).

Record Streamer := mkStreamer {
  recording : bool;
  paused : bool;
  proc : proc_t;
  meta : info_t
}.

(** The own properties the bot has written on an object that
    [this.streamers] inherits from [Object.prototype]; [None] is a
    property that was never written. *)
Record Inherited := mkInherited {
  i_recording : option bool;
  i_paused : option bool;
  i_proc : option proc_t;
  i_meta : option info_t
}.

Record Config := mkConfig {
  cfg_streamers : option (list string);
  checkInterval : option Z;
  recordCmd : option string;
  recordCmdArgs : option (list string)
}.

(** A child process as the bot sees it: what it was spawned with, the
    [name] its observers close over, its [exitCode] ([None] is [null]),
    the signals sent to it with [kill], and whether it has reported
    [exit] or [error] to its observers. *)
Record ChildProcess := mkChild {
  spawn_cmd : string;
  spawn_args : list string;
  spawned_for : string;
  exitCode : option Z;
  kills : list string;
  reported : bool
}.

(** Content of a configuration file: not JSON, or the parsed value
    ([None] is the JSON value [null]). *)
Inductive file :=
  | Garbage
  | Json (c : option Config).

(** [this.timeout]: [null] (constructor), [false] (tick running) or the
    handle of [setTimeout]. *)
Inductive timeout_t :=
  | TNull
  | TFalse
  | TTimer (id : nat).

Inductive log_entry :=
  | LogInfo (msg : string)
  | LogError (msg : string).

Record State := mkState {
  (* the Bot object *)
  config : option Config;
  streamers : gmap string Streamer;
  running : bool;
  timeout : timeout_t;
  (* its environment *)
  disk : option file;        (* /data/config.json *)
  example : option file;     (* example_config.json *)
  writable : bool;           (* whether writing /data/config.json works *)
  procs : list ChildProcess; (* the handle of a process is its index *)
  timers : gmap nat Z;       (* pending timers and their delay in ms *)
  next_timer : nat;
  log : list log_entry;
  (* what was written on the objects inherited from Object.prototype,
     by the name that reaches them *)
  inherited : gmap string Inherited
}.

Global Instance jsdata_eq_dec : EqDecision jsdata.
Proof. solve_decision. Defined.
Global Instance info_eq_dec : EqDecision info_t.
Proof. solve_decision. Defined.
Global Instance proc_eq_dec : EqDecision proc_t.
Proof. solve_decision. Defined.
Global Instance Config_eq_dec : EqDecision Config.
Proof. solve_decision. Defined.

(** Field updates. *)
Definition set_config (c : option Config) (s : State) : State :=
  mkState c (streamers s) (running s) (timeout s) (disk s) (example s)
          (writable s) (procs s) (timers s) (next_timer s) (log s) (inherited s).
Definition set_streamers (m : gmap string Streamer) (s : State) : State :=
  mkState (config s) m (running s) (timeout s) (disk s) (example s)
          (writable s) (procs s) (timers s) (next_timer s) (log s) (inherited s).
Definition set_running (b : bool) (s : State) : State :=
  mkState (config s) (streamers s) b (timeout s) (disk s) (example s)
          (writable s) (procs s) (timers s) (next_timer s) (log s) (inherited s).
Definition set_timeout (t : timeout_t) (s : State) : State :=
  mkState (config s) (streamers s) (running s) t (disk s) (example s)
          (writable s) (procs s) (timers s) (next_timer s) (log s) (inherited s).
Definition set_disk (d : option file) (s : State) : State :=
  mkState (config s) (streamers s) (running s) (timeout s) d (example s)
          (writable s) (procs s) (timers s) (next_timer s) (log s) (inherited s).
Definition set_writable (b : bool) (s : State) : State :=
  mkState (config s) (streamers s) (running s) (timeout s) (disk s) (example s)
          b (procs s) (timers s) (next_timer s) (log s) (inherited s).
Definition set_procs (p : list ChildProcess) (s : State) : State :=
  mkState (config s) (streamers s) (running s) (timeout s) (disk s) (example s)
          (writable s) p (timers s) (next_timer s) (log s) (inherited s).
Definition set_timers (t : gmap nat Z) (n : nat) (s : State) : State :=
  mkState (config s) (streamers s) (running s) (timeout s) (disk s) (example s)
          (writable s) (procs s) t n (log s) (inherited s).
Definition set_log (l : list log_entry) (s : State) : State :=
  mkState (config s) (streamers s) (running s) (timeout s) (disk s) (example s)
          (writable s) (procs s) (timers s) (next_timer s) l (inherited s).
Definition set_inherited (i : gmap string Inherited) (s : State) : State :=
  mkState (config s) (streamers s) (running s) (timeout s) (disk s) (example s)
          (writable s) (procs s) (timers s) (next_timer s) (log s) i.

Definition set_recording (b : bool) (r : Streamer) : Streamer :=
  mkStreamer b (paused r) (proc r) (meta r).
Definition set_paused (b : bool) (r : Streamer) : Streamer :=
  mkStreamer (recording r) b (proc r) (meta r).
Definition set_proc (p : proc_t) (r : Streamer) : Streamer :=
  mkStreamer (recording r) (paused r) p (meta r).
Definition set_meta (i : info_t) (r : Streamer) : Streamer :=
  mkStreamer (recording r) (paused r) (proc r) i.

(** ** Computations that return or throw *)

Inductive exn :=
  | Error (msg : string)
  | TypeError (msg : string)
  | SyntaxError (msg : string)
  | SystemError (msg : string).

Inductive outcome (A : Type) :=
  | Return (a : A) (s : State)
  | Throw (e : exn) (s : State).
Arguments Return {A} a s.
Arguments Throw {A} e s.

Definition M (A : Type) : Type := State -> outcome A.

Definition ret {A} (a : A) : M A := fun s => Return a s.
Definition throw {A} (e : exn) : M A := fun s => Throw e s.
Definition bind {A B} (c : M A) (k : A -> M B) : M B :=
  fun s => match c s with
           | Return a s' => k a s'
           | Throw e s' => Throw e s'
           end.
Definition gets {A} (f : State -> A) : M A := fun s => Return (f s) s.
Definition modify (f : State -> State) : M unit := fun s => Return tt (f s).

Global Instance M_ret : MRet M := @ret.
Global Instance M_bind : MBind M := fun A B k c => bind c k.

(** The state a computation leaves, whichever way it ends. *)
Definition state_of {A} (o : outcome A) : State :=
  match o with Return _ s => s | Throw _ s => s end.

Definition returned {A} (o : outcome A) : bool :=
  match o with Return _ _ => true | Throw _ _ => false end.

(** [list.forEach(f)]. *)
Fixpoint forEach {A} (l : list A) (f : A -> M unit) : M unit :=
  match l with
  | [] => ret tt
  | x :: l' => f x;; forEach l' f
  end.

(** ** The logger, timers, files and processes *)

Definition log_info (msg : string) : M unit :=
  modify (fun s => set_log (log s ++ [LogInfo msg]) s).
Definition log_error (msg : string) : M unit :=
  modify (fun s => set_log (log s ++ [LogError msg]) s).

(** [this.timeout && clearTimeout(this.timeout)]. *)
Definition clear_own_timeout : M unit :=
  t ← gets timeout;
  match t with
  | TTimer id => modify (fun s => set_timers (delete id (timers s)) (next_timer s) s)
  | TNull | TFalse => ret tt
  end.

(** [setTimeout(f, ms)]: a fresh pending timer. Node takes a delay
    outside 1 .. 2^31-1 for 1 ms. *)
Definition timer_delay (ms : Z) : Z :=
  if decide (1 <= ms <= 2147483647)%Z then ms else 1%Z.

Definition setTimeout (ms : Z) : M nat :=
  id ← gets next_timer;
  modify (fun s => set_timers (<[id := timer_delay ms]> (timers s)) (S id) s);;
  ret id.

(** [fs.writeFileSync('/data/config.json', JSON.stringify(this.config))]. *)
Definition writeConfig : M unit :=
  w ← gets writable;
  if w : bool then modify (fun s => set_disk (Some (Json (config s))) s)
  else throw (SystemError "EACCES: /data/config.json").

(** [proc.kill(sig)] on a child process. *)
Definition add_kill (sig : string) (c : ChildProcess) : ChildProcess :=
  mkChild (spawn_cmd c) (spawn_args c) (spawned_for c) (exitCode c)
          (kills c ++ [sig]) (reported c).
Definition kill (pid : nat) (sig : string) : M unit :=
  modify (fun s => set_procs (alter (add_kill sig) pid (procs s)) s).

(** [spawn(cmd, args, {stdio: 'inherit'})]; the command has to be a
    non-empty string. The two observers registered right after close
    over [name], kept in [spawned_for]. *)
Definition spawn (cmd : option string) (args : list string) (name : string) : M nat :=
  match cmd with
  | None => throw (TypeError "The file argument must be of type string")
  | Some c =>
      if decide (c = "") then throw (TypeError "The argument file cannot be empty")
      else
        pid ← gets (fun s => length (procs s));
        modify (fun s => set_procs (procs s ++ [mkChild c args name None [] false]) s);;
        ret pid
  end.

(** [proc.exitCode] of a handle. A handle outside the table stands for a
    process of which nothing is known: its exit code is [null]. *)
Definition exitCode_of (ps : list ChildProcess) (pid : nat) : option Z :=
  match ps !! pid with
  | Some c => exitCode c
  | None => None
  end.

(** ** The Bot class *)

(** [if (!name) throw ...]: the parameter is missing or the empty string. *)
Definition require_name (name : option string) : M string :=
  match name with
  | Some n => if decide (n = "") then throw (Error "No streamer parameter supplied")
              else ret n
  | None => throw (Error "No streamer parameter supplied")
  end.

(** [this.config.<field>]: throws when [this.config] is [null]. *)
Definition get_config (field : string) : M Config :=
  c ← gets config;
  match c with
  | Some c => ret c
  | None => throw (TypeError ("Cannot read properties of null (reading '"
                              +:+ field +:+ "')"))
  end.

(** [this.config.streamers.<method>(...)]: throws also when the list is
    missing. *)
Definition get_config_streamers (method : string) : M (list string) :=
  c ← get_config "streamers";
  match cfg_streamers c with
  | Some l => ret l
  | None => throw (TypeError ("Cannot read properties of undefined (reading '"
                              +:+ method +:+ "')"))
  end.

(** The property names every object inherits from [Object.prototype]. *)
Definition Object_prototype_names : list string :=
  ["constructor"; "__defineGetter__"; "__defineSetter__"; "hasOwnProperty";
   "__lookupGetter__"; "__lookupSetter__"; "isPrototypeOf";
   "propertyIsEnumerable"; "toString"; "valueOf"; "__proto__";
   "toLocaleString"].

(** What the bot has written on the inherited object [name]. *)
Definition written (i : gmap string Inherited) (name : string) : Inherited :=
  default (mkInherited None None None None) (i !! name).

(** [Object.prototype.paused], once [pauseStreamer] or [resumeStreamer]
    has written it through the name "__proto__". *)
Definition proto_paused (i : gmap string Inherited) : option bool :=
  i_paused (written i "__proto__").

(** What [this.streamers[name]] evaluates to: the record that is an own
    property; an object inherited from [Object.prototype]; under the
    name "paused", the boolean [Object.prototype.paused] when it has
    been written; or [undefined]. *)
Inductive slot :=
  | SOwn (rec : Streamer)
  | SInherited
  | SBool (b : bool)
  | SUndefined.

Definition slot_of (m : gmap string Streamer) (i : gmap string Inherited)
    (name : string) : slot :=
  match m !! name with
  | Some rec => SOwn rec
  | None =>
      if bool_decide (name ∈ Object_prototype_names) then SInherited
      else if decide (name = "paused") then
        match proto_paused i with
        | Some b => SBool b
        | None => SUndefined
        end
      else SUndefined
  end.

(** [if (this.streamers[name])]. *)
Definition truthy (sl : slot) : bool :=
  match sl with
  | SOwn _ | SInherited => true
  | SBool b => b
  | SUndefined => false
  end.

(** A property of the inherited object [name]: its own property when the
    bot has written one, else what it inherits in turn from
    [Object.prototype], the object that "__proto__" reaches. *)
Definition inherited_property {A} (f : Inherited -> option A)
    (i : gmap string Inherited) (name : string) : option A :=
  match f (written i name) with
  | Some v => Some v
  | None => if decide (name = "__proto__") then None
            else f (written i "__proto__")
  end.

(** The four properties of an inherited object as the bot reads them: it
    only tests [recording], [paused] and [proc] for truth, and
    [undefined] is as false as [false] and [null]. *)
Definition inherited_view (i : gmap string Inherited) (name : string) : Streamer :=
  mkStreamer (default false (inherited_property i_recording i name))
             (default false (inherited_property i_paused i name))
             (default PNull (inherited_property i_proc i name))
             (default IFalse (inherited_property i_meta i name)).

(** [this.streamers[name].<field>] read: throws when
    [this.streamers[name]] is [undefined]. A boolean has no property of
    its own: its [paused] is [Object.prototype.paused], the boolean
    itself. *)
Definition get_streamer (name field : string) : M Streamer :=
  fun s =>
    match slot_of (streamers s) (inherited s) name with
    | SOwn rec => Return rec s
    | SInherited => Return (inherited_view (inherited s) name) s
    | SBool b => Return (mkStreamer false b PNull IFalse) s
    | SUndefined =>
        Throw (TypeError ("Cannot read properties of undefined (reading '"
                          +:+ field +:+ "')")) s
    end.

(** [this.streamers[name].<field> = value]. *)
Inductive assignment :=
  | SetRecording (b : bool)
  | SetPaused (b : bool)
  | SetProc (p : proc_t)
  | SetMeta (i : info_t).

Definition field_of (a : assignment) : string :=
  match a with
  | SetRecording _ => "recording"
  | SetPaused _ => "paused"
  | SetProc _ => "proc"
  | SetMeta _ => "meta"
  end.

Definition assign_rec (a : assignment) (r : Streamer) : Streamer :=
  match a with
  | SetRecording b => set_recording b r
  | SetPaused b => set_paused b r
  | SetProc p => set_proc p r
  | SetMeta i => set_meta i r
  end.

Definition assign_inherited (a : assignment) (x : Inherited) : Inherited :=
  match a with
  | SetRecording b => mkInherited (Some b) (i_paused x) (i_proc x) (i_meta x)
  | SetPaused b => mkInherited (i_recording x) (Some b) (i_proc x) (i_meta x)
  | SetProc p => mkInherited (i_recording x) (i_paused x) (Some p) (i_meta x)
  | SetMeta i => mkInherited (i_recording x) (i_paused x) (i_proc x) (Some i)
  end.

(** The class body is strict code: an assignment to a property of a
    boolean throws. *)
Definition assign (name : string) (a : assignment) : M unit :=
  fun s =>
    match slot_of (streamers s) (inherited s) name with
    | SOwn rec =>
        Return tt (set_streamers (<[name := assign_rec a rec]> (streamers s)) s)
    | SInherited =>
        Return tt (set_inherited
                     (<[name := assign_inherited a (written (inherited s) name)]>
                        (inherited s)) s)
    | SBool b =>
        Throw (TypeError ("Cannot create property '" +:+ field_of a
                          +:+ "' on boolean '"
                          +:+ (if b then "true" else "false") +:+ "'")) s
    | SUndefined =>
        Throw (TypeError ("Cannot set properties of undefined (setting '"
                          +:+ field_of a +:+ "')")) s
    end.

(** [this.streamers[name] = rec], on a name for which
    [this.streamers[name]] was [undefined] or [false]. *)
Definition put_streamer (name : string) (rec : Streamer) : M unit :=
  modify (fun s => set_streamers (<[name := rec]> (streamers s)) s).

(** [delete this.streamers[name]]: nothing happens when [name] is not an
    own property. *)
Definition delete_streamer (name : string) : M unit :=
  modify (fun s => set_streamers (delete name (streamers s)) s).

(** [Object.keys(this.streamers)]: the own keys, each once. *)
Definition Object_keys (m : gmap string Streamer) : list string :=
  elements (dom m).

Definition with_streamers (l : list string) (c : Config) : Config :=
  mkConfig (Some l) (checkInterval c) (recordCmd c) (recordCmdArgs c).

Definition pause : M bool :=
  r ← gets running;
  if negb r then throw (Error "Bot not running")
  else
    log_info "Pausing";;
    clear_own_timeout;;
    modify (set_running false);;
    log_info "Successfully paused";;
    ret true.

(** The body of the loop of [stop]; the names were filtered on a
    truthy [proc]. *)
Definition stop_one (name : string) : M unit :=
  rec ← get_streamer name "proc";
  match proc rec with
  | PChild pid => kill pid "SIGINT"
  | PNull => throw (TypeError "Cannot read properties of null (reading 'kill')")
  | PFalse => throw (TypeError "this.streamers[name].proc.kill is not a function")
  end.

(** [Boolean(this.streamers[name].proc)], for a name of
    [Object.keys(this.streamers)]. *)
Definition has_proc (m : gmap string Streamer) (name : string) : bool :=
  match m !! name with
  | Some rec => match proc rec with PChild _ => true | PNull | PFalse => false end
  | None => false
  end.

(** [stop] up to [process.exit(0)]. *)
Definition stop : M unit :=
  log_info "Caught stop signal, stopping";;
  r ← gets running;
  (if r : bool then clear_own_timeout;; modify (set_running false) else ret tt);;
  m ← gets streamers;
  forEach (filter (fun name => has_proc m name = true) (Object_keys m)) stop_one;;
  log_info "Successfully stopped".

Definition checkConfigExists : M unit :=
  d ← gets disk;
  match d with
  | Some _ => ret tt
  | None =>
      log_info "Config file not found. Importing example config";;
      e ← gets example;
      w ← gets writable;
      match e with
      | Some f => if w : bool then modify (set_disk (Some f))
                  else throw (SystemError "EACCES: /data/config.json")
      | None => throw (SystemError "ENOENT: example_config.json")
      end
  end.

(** The two [JSON.stringify] are equal exactly when the two values are. *)
Definition reloadConfig : M unit :=
  d ← gets disk;
  match d with
  | None => throw (SystemError "ENOENT: /data/config.json")
  | Some Garbage => throw (SyntaxError "Unexpected token in JSON")
  | Some (Json c) =>
      cur ← gets config;
      if decide (c = cur) then ret tt
      else log_info "Config reloaded";; modify (set_config c)
  end.

(** [getInfo] after [axios.get] has settled. *)
Definition getInfo_k (username : string) (r : axios_result) : M info_t :=
  match r with
  | AxiosResolved d => ret (IData d)
  | AxiosRejected =>
      log_error ("Error checking if " +:+ username +:+ " is online");;
      ret IFalse
  end.

(** [info['room_status']]. *)
Definition room_status_of (i : info_t) : M (option string) :=
  match i with
  | IFalse => ret None
  | IData DNullish =>
      throw (TypeError "Cannot read properties of null (reading 'room_status')")
  | IData (DObject rs) => ret rs
  end.

(** The two observers share their body. *)
Definition reset_or_delete (name : string) : M unit :=
  l ← get_config_streamers "includes";
  if bool_decide (name ∈ l) then
    assign name (SetProc PFalse);;
    assign name (SetRecording false)
  else
    sl ← gets (fun s => slot_of (streamers s) (inherited s) name);
    if truthy sl then delete_streamer name else ret tt.

Definition on_exit (name : string) : M unit :=
  log_info ("Recording ended -- " +:+ name);;
  reset_or_delete name.

Definition on_error (pid : nat) (name : string) : M unit :=
  log_info ("Recording reported error -- " +:+ name);;
  kill pid "SIGINT";;
  reset_or_delete name.

(** [updateStreamer] after the probe has settled. *)
Definition updateStreamer_k (name : string) (r : axios_result) : M unit :=
  info ← getInfo_k name r;
  assign name (SetMeta info);;
  rec ← get_streamer name "paused";
  if paused rec then ret tt
  else
    rs ← room_status_of info;
    if bool_decide (rs = Some "public") && negb (recording rec) then
      log_info ("Recording starting -- " +:+ name);;
      c ← get_config "recordCmdArgs";
      let url := "https://chaturbate.com/" +:+ name +:+ "/" in
      let args := default [] (recordCmdArgs c) ++ [url] in
      child ← spawn (recordCmd c) args name;
      assign name (SetProc (PChild child));;
      assign name (SetRecording true)
    else ret tt.

Definition getStatus : M (bool * option Config * gmap string Streamer) :=
  gets (fun s => (running s, config s, streamers s)).

(** [proc && !proc.exitCode]: the handle is there and its exit code is
    [null] or [0]. *)
Definition proc_alive (ps : list ChildProcess) (p : proc_t) : bool :=
  match p with
  | PChild pid =>
      match exitCode_of ps pid with
      | Some code => bool_decide (code = 0%Z)
      | None => true
      end
  | PNull | PFalse => false
  end.

(** The body of the first loop of [run]. *)
Definition sync_one (streamer : string) : M unit :=
  sl ← gets (fun s => slot_of (streamers s) (inherited s) streamer);
  if truthy sl then
    rec ← get_streamer streamer "recording";
    if recording rec then
      ps ← gets procs;
      if proc_alive ps (proc rec) then ret tt
      else
        log_info ("Stream failed for " +:+ streamer +:+ ", resetting");;
        assign streamer (SetRecording false);;
        assign streamer (SetProc PNull)
    else ret tt
  else
    log_info ("New streamer " +:+ streamer);;
    put_streamer streamer (mkStreamer false false PNull IFalse).

(** The body of the second loop of [run]. *)
Definition prune_one (streamer : string) : M unit :=
  log_info ("Streamer " +:+ streamer +:+ " removed from config");;
  rec ← get_streamer streamer "recording";
  if recording rec then ret tt
  else delete_streamer streamer.

(** "Update internal streamers list". *)
Definition sync_registry (l : list string) : M unit :=
  forEach l sync_one.

(** "Remove any streamers no longer in config". *)
Definition prune_registry (l : list string) : M unit :=
  keys ← gets (fun s => Object_keys (streamers s));
  forEach (filter (fun name => name ∉ l) keys) prune_one.

(** [run] up to [await Promise.all(...)]: the value is the list of names
    whose probe is now in flight. *)
Definition run_sync : M (list string) :=
  modify (set_running true);;
  modify (set_timeout TFalse);;
  checkConfigExists;;
  reloadConfig;;
  l ← get_config_streamers "forEach";
  sync_registry l;;
  prune_registry l;;
  gets (fun s => Object_keys (streamers s)).

(** [run] after [Promise.all] has resolved. *)
Definition run_finish : M bool :=
  c ← get_config "checkInterval";
  let t := match checkInterval c with
           | Some z => if decide (z = 0%Z) then 60%Z else z
           | None => 60%Z
           end in
  id ← setTimeout (t * 1000)%Z;
  modify (set_timeout (TTimer id));;
  ret true.

(** A call [this.run()] whose promise is dropped: the synchronous part
    runs, an exception only rejects the promise. *)
Definition call_run : M unit :=
  fun s => Return tt (state_of (run_sync s)).

Definition addStreamer (name : option string) : M bool :=
  n ← require_name name;
  c ← get_config "streamers";
  let l := default [] (cfg_streamers c) in
  if bool_decide (n ∈ l) then throw (Error "Streamer already in streamers list")
  else
    clear_own_timeout;;
    modify (set_config (Some (with_streamers (l ++ [n]) c)));;
    writeConfig;;
    r ← gets running;
    (if r : bool then call_run else ret tt);;
    ret true.

Definition removeStreamer (name : option string) : M bool :=
  n ← require_name name;
  c ← get_config "streamers";
  let l := default [] (cfg_streamers c) in
  if negb (bool_decide (n ∈ l)) then throw (Error "Streamer is not in streamers list")
  else
    modify (set_config (Some (with_streamers (filter (fun x => x ≠ n) l) c)));;
    writeConfig;;
    ret true.

(** The membership test of [pauseStreamer] and [resumeStreamer]. *)
Definition require_known (n : string) : M unit :=
  c ← get_config "streamers";
  let l := default [] (cfg_streamers c) in
  keys ← gets (fun s => Object_keys (streamers s));
  if negb (bool_decide (n ∈ l)) && negb (bool_decide (n ∈ keys))
  then throw (Error "Streamer is not in streamers list")
  else ret tt.

Definition pauseStreamer (name : option string) : M bool :=
  n ← require_name name;
  require_known n;;
  rec ← get_streamer n "proc";
  match proc rec with
  | PChild pid => kill pid "SIGINT"
  | PNull | PFalse => ret tt
  end;;
  log_info ("Pausing streams for " +:+ n);;
  assign n (SetPaused true);;
  ret true.

Definition resumeStreamer (name : option string) : M bool :=
  n ← require_name name;
  require_known n;;
  log_info ("Resuming streams for " +:+ n);;
  assign n (SetPaused false);;
  r ← gets running;
  (if r : bool then call_run else ret tt);;
  ret true.

(** ** The API layer *)

Inductive response (A : Type) :=
  | Success (data : A)
  | Failure (message : exn).
Arguments Success {A} data.
Arguments Failure {A} message.

(** [logger.info(...)] through a reference that may be [undefined]. *)
Definition info_through (logger : option unit) (msg : string) : M unit :=
  match logger with
  | Some _ => log_info msg
  | None => throw (TypeError "Cannot read properties of undefined (reading 'info')")
  end.

(** [this.logger] inside [apiResponse]. The function is called as
    [apiResponse(...)], not as a method: its [this] is the global object
    (or [undefined]), which has no [logger]; the logger of the file is
    the module-level constant [logger], and the bot's is [bot.logger]. *)
Definition apiResponse_this_logger : option unit := None.

Definition apiResponse {A} (callback : M A) : M (response A) :=
  fun s =>
    match callback s with
    | Return data s' => Return (Success data) s'
    | Throw e s' =>
        (info_through apiResponse_this_logger "API Error";;
         ret (Failure e)) s'
    end.

Definition ok_or_fail (b : bool) : string := if b then "OK" else "FAIL".

Inductive request :=
  | GetStatus
  | GetPause
  | GetRun
  | GetAdd (streamer : option string)
  | GetRemove (streamer : option string)
  | GetPauseStreamer (streamer : option string)
  | GetResumeStreamer (streamer : option string).

Inductive body :=
  | StatusBody (st : bool * option Config * gmap string Streamer)
  | TextBody (t : string).

(** The route handlers up to [res.json(response)]; what they throw
    reaches the transport. [bot.run()] is a promise, hence truthy. *)
Definition route (q : request) : M (response body) :=
  match q with
  | GetStatus => apiResponse (st ← getStatus; ret (StatusBody st))
  | GetPause => apiResponse (b ← pause; ret (TextBody (ok_or_fail b)))
  | GetRun => apiResponse (call_run;; ret (TextBody (ok_or_fail true)))
  | GetAdd n => apiResponse (b ← addStreamer n; ret (TextBody (ok_or_fail b)))
  | GetRemove n => apiResponse (b ← removeStreamer n; ret (TextBody (ok_or_fail b)))
  | GetPauseStreamer n => apiResponse (b ← pauseStreamer n; ret (TextBody (ok_or_fail b)))
  | GetResumeStreamer n => apiResponse (b ← resumeStreamer n; ret (TextBody (ok_or_fail b)))
  end.

(** ** The event loop *)

(** What the Node event loop can deliver to the bot. [ProbeSettled] and
    [ProbesDone] resume an [updateStreamer] and a [run] that are in
    flight; which ones are in flight is not tracked, so the events below
    allow every interleaving of the program and some more. An exception
    in a route fails the request, and an exception in an [async] method
    rejects its promise, which nothing handles: the bot goes on from the
    state the exception left. (Node, from version 15 on, ends the
    process on an unhandled rejection; letting the bot go on adds
    executions and removes none.) *)
Inductive event :=
  | Api (q : request)
  | TimerFired (id : nat)
  | ProbeSettled (name : string) (r : axios_result)
  | ProbesDone
  | ProcExit (pid : nat) (code : option Z)
  | ProcError (pid : nat)
  | FileEdited (d : option file)
  | PermissionChanged (w : bool)
  | StopSignal.

Definition mark_reported (code : option Z) (c : ChildProcess) : ChildProcess :=
  mkChild (spawn_cmd c) (spawn_args c) (spawned_for c) code (kills c) true.

(** An exception in an event listener is an uncaught exception, which
    ends the Node process: there is no next state. *)
Definition listener (o : outcome unit) : option State :=
  match o with
  | Return _ s' => Some s'
  | Throw _ _ => None
  end.

Definition step (ev : event) (s : State) : option State :=
  match ev with
  | Api q => Some (state_of (route q s))
  | TimerFired id =>
      match timers s !! id with
      | Some _ =>
          Some (state_of (call_run (set_timers (delete id (timers s)) (next_timer s) s)))
      | None => None
      end
  | ProbeSettled name r => Some (state_of (updateStreamer_k name r s))
  | ProbesDone => Some (state_of (run_finish s))
  | ProcExit pid code =>
      match procs s !! pid with
      | Some c =>
          listener (on_exit (spawned_for c)
                      (set_procs (alter (mark_reported code) pid (procs s)) s))
      | None => None
      end
  | ProcError pid =>
      match procs s !! pid with
      | Some c =>
          listener (on_error pid (spawned_for c)
                      (set_procs (alter (mark_reported (exitCode c)) pid (procs s)) s))
      | None => None
      end
  | FileEdited d => Some (set_disk d s)
  | PermissionChanged w => Some (set_writable w s)
  | StopSignal =>
      (* SIGINT or SIGTERM: [stop] signals the processes and ends with
         [process.exit(0)] *)
      match stop s with
      | Return _ _ | Throw _ _ => None
      end
  end.

Fixpoint steps (evs : list event) (s : State) : option State :=
  match evs with
  | [] => Some s
  | ev :: evs' =>
      match step ev s with
      | Some s' => steps evs' s'
      | None => None
      end
  end.

(** The state [new Bot(logger)] builds, in a given environment. *)
Definition init (d e : option file) (w : bool) : State :=
  mkState None ∅ false TNull d e w [] ∅ 0 [] ∅.

(** ** One tick without interleaving *)

(** All the probes of a tick settle, one after the other, as [resp]
    says; a rejected [updateStreamer] does not stop the others. The
    first rejection is what [Promise.all] rejects with. *)
Fixpoint settle_all (resp : string -> axios_result) (names : list string)
    (s : State) : option exn * State :=
  match names with
  | [] => (None, s)
  | n :: ns =>
      match updateStreamer_k n (resp n) s with
      | Return _ s' => settle_all resp ns s'
      | Throw e s' => (Some e, snd (settle_all resp ns s'))
      end
  end.

(** [run] from its [await] on: the probes settle, and [run] goes on to
    schedule the next tick unless one of them was rejected. *)
Definition run_resume (resp : string -> axios_result) (names : list string) : M bool :=
  fun s =>
    match settle_all resp names s with
    | (Some e, s') => Throw e s'
    | (None, s') => run_finish s'
    end.

Definition tick (resp : string -> axios_result) : M bool :=
  names ← run_sync;
  run_resume resp names.

(** ** Example states *)

Definition cfg_alice : Config :=
  mkConfig (Some ["alice"]) (Some 60%Z) (Some "yt-dlp") None.

Definition child_alice : ChildProcess :=
  mkChild "yt-dlp" ["https://chaturbate.com/alice/"] "alice" None [] false.

(** "alice" is configured and recording. *)
Definition st_recording : State :=
  mkState (Some cfg_alice)
          {[ "alice" := mkStreamer true false (PChild 0) IFalse ]}
          true (TTimer 0) (Some (Json (Some cfg_alice))) None true
          [child_alice] {[ 0 := 60000%Z ]} 1 [] ∅.

(** "alice" is configured and known, not recording. *)
Definition st_idle : State :=
  mkState (Some cfg_alice)
          {[ "alice" := mkStreamer false false PNull IFalse ]}
          true (TTimer 0) (Some (Json (Some cfg_alice))) None true
          [] {[ 0 := 60000%Z ]} 1 [] ∅.

(** [st_recording] after [pauseStreamer("alice")]. *)
Definition st_recording_paused : State :=
  state_of (pauseStreamer (Some "alice") st_recording).



(** "alice" has just been added to the configuration: no tick has made
    her record yet. *)
Definition st_added : State :=
  mkState (Some cfg_alice) ∅ false TNull (Some (Json (Some cfg_alice))) None true
          [] ∅ 0 [] ∅.

(** The configuration has no list of names. *)
Definition st_no_list : State :=
  mkState (Some (mkConfig None (Some 60%Z) (Some "yt-dlp") None)) ∅ false TNull
          (Some (Json (Some (mkConfig None (Some 60%Z) (Some "yt-dlp") None))))
          None true [] ∅ 0 [] ∅.



(** "alice" is configured; "bob" has a record left from before, and is
    not recording. *)
Definition st_stale : State :=
  mkState (Some cfg_alice)
          {[ "alice" := mkStreamer false false PNull IFalse;
             "bob" := mkStreamer false true PFalse IFalse ]}
          true (TTimer 0) (Some (Json (Some cfg_alice))) None true
          [] {[ 0 := 60000%Z ]} 1 [] ∅.

(** The configuration file is not JSON. *)
Definition st_garbage : State :=
  mkState (Some cfg_alice)
          {[ "alice" := mkStreamer false false PNull IFalse ]}
          true (TTimer 0) (Some Garbage) None true
          [] {[ 0 := 60000%Z ]} 1 [] ∅.


(** * Predicates of the specification *)

(** A computation keeps [P], whether it returns or throws. *)
Definition preserves {A} (P : State -> Prop) (c : M A) : Prop :=
  forall s, P s -> P (state_of (c s)).


(** A property of the state that does not look at the fields which
    [run], up to its [await], writes. *)
Definition sync_stable (P : State -> Prop) : Prop :=
  (forall s b, P s -> P (set_running b s)) /\
  (forall s t, P s -> P (set_timeout t s)) /\
  (forall s d, P s -> P (set_disk d s)) /\
  (forall s c, P s -> P (set_config c s)) /\
  (forall s l, P s -> P (set_log l s)) /\
  (forall s m, P s -> P (set_streamers m s)) /\
  (forall s i, P s -> P (set_inherited i s)).

(** A property of the state that does not look at the log, the registry
    or the processes. *)
Definition update_stable (P : State -> Prop) : Prop :=
  (forall s l, P s -> P (set_log l s)) /\
  (forall s m, P s -> P (set_streamers m s)) /\
  (forall s p, P s -> P (set_procs p s)) /\
  (forall s i, P s -> P (set_inherited i s)).

(** A record flagged as recording holds the handle of a process that has
    not reported [exit] or [error]. *)
Definition recording_live (m : gmap string Streamer) (ps : list ChildProcess) : Prop :=
  forall n r, m !! n = Some r -> recording r = true ->
    exists pid c, proc r = PChild pid /\ ps !! pid = Some c /\ reported c = false.

(** A handle in the record of [n] is the handle of a process that was
    spawned for [n]: its observers act on that record. *)
Definition handles_owned (m : gmap string Streamer) (ps : list ChildProcess) : Prop :=
  forall n r pid, m !! n = Some r -> proc r = PChild pid ->
    exists c, ps !! pid = Some c /\ spawned_for c = n.

(** A record that holds a handle is flagged as recording. *)
Definition handles_recording (m : gmap string Streamer) : Prop :=
  forall n r pid, m !! n = Some r -> proc r = PChild pid -> recording r = true.

(** The invariant of the registry, with what makes it inductive. *)
Definition Inv_on (m : gmap string Streamer) (ps : list ChildProcess) : Prop :=
  recording_live m ps /\ handles_owned m ps /\ handles_recording m.

Definition Inv (s : State) : Prop := Inv_on (streamers s) (procs s).

(** The first [run] of the bot on the configuration [cfg_alice], then
    the probe of "alice" answers that she is public. *)
Definition trace_alice_live : list event :=
  [Api GetRun; ProbeSettled "alice" (AxiosResolved (DObject (Some "public")))].

Definition st_alice_live : State :=
  let i := init (Some (Json (Some cfg_alice))) None true in
  default i (steps trace_alice_live i).

(** [this.streamers] inherits a property named [n]. *)
Definition inherits (s : State) (n : string) : Prop :=
  n ∈ Object_prototype_names \/
  (n = "paused" /\ is_Some (proto_paused (inherited s))).

(** The names the bot takes for configured. *)
Definition configured (s : State) : list string :=
  match config s with
  | Some c => default [] (cfg_streamers c)
  | None => []
  end.

(** [E] has a record that is recording, with the handle [p]. *)
Definition keeps_on (E : string) (p : proc_t) (m : gmap string Streamer) : Prop :=
  exists r, m !! E = Some r /\ recording r = true /\ proc r = p.

Definition keeps (E : string) (p : proc_t) (s : State) : Prop :=
  keeps_on E p (streamers s).






(** What the sync step makes of a record. *)
Definition sync_rec (ps : list ChildProcess) (r : Streamer) : Streamer :=
  if recording r && negb (proc_alive ps (proc r))
  then mkStreamer false (paused r) PNull (meta r)
  else r.

(** The own record of [n] after the sync step has visited [n]. *)
Definition sync_slot (ps : list ChildProcess) (m : gmap string Streamer)
    (i : gmap string Inherited) (n : string) : option Streamer :=
  match slot_of m i n with
  | SOwn r => Some (sync_rec ps r)
  | SInherited | SBool true => None
  | SBool false | SUndefined => Some (mkStreamer false false PNull IFalse)
  end.

(** The sync step would leave the registry at [n] as it is: the record
    of [n] is there and, when flagged as recording, passes the liveness
    test; or [n] has no record and [this.streamers[n]] is inherited and
    true. *)
Definition synced (ps : list ChildProcess) (m : gmap string Streamer)
    (i : gmap string Inherited) (n : string) : Prop :=
  (exists r, m !! n = Some r /\ (recording r = true -> proc_alive ps (proc r) = true)) \/
  (m !! n = None /\ truthy (slot_of m i n) = true).

(** The registry as the two loops of [run] leave it for the configured
    names [l]. *)
Definition tidy (l : list string) (s : State) : Prop :=
  (forall n, n ∈ l -> synced (procs s) (streamers s) (inherited s) n) /\
  (forall k r, streamers s !! k = Some r -> k ∉ l -> recording r = true).

(** [s'] is [s] up to the registry, the inherited objects and the log,
    and [Object.prototype.paused] is the same. *)
Definition registry_step (s s' : State) : Prop :=
  s' = set_inherited (inherited s') (set_streamers (streamers s') (set_log (log s') s)) /\
  proto_paused (inherited s') = proto_paused (inherited s).

(** [s'] is [s] up to the inherited objects: what a computation on the
    properties of a name without an own record can change. *)
Definition inherited_step (s s' : State) : Prop := s' = set_inherited (inherited s') s.

(** The process [c'] is [c] after some more signals. *)
Definition signalled_on (c c' : ChildProcess) : Prop :=
  spawn_cmd c' = spawn_cmd c /\ spawn_args c' = spawn_args c /\
  spawned_for c' = spawned_for c /\ exitCode c' = exitCode c /\
  reported c' = reported c /\ forall sig, sig ∈ kills c -> sig ∈ kills c'.

(** The table [ps'] is [ps] after some more signals. *)
Definition signals_only (ps ps' : list ChildProcess) : Prop :=
  length ps' = length ps /\
  forall pid c, ps !! pid = Some c ->
    exists c', ps' !! pid = Some c' /\ signalled_on c c'.

(** The value [getInfo] gives for an answer of the probe. *)
Definition info_of (r : axios_result) : info_t :=
  match r with
  | AxiosRejected => IFalse
  | AxiosResolved d => IData d
  end.

(** [info['room_status']] when it does not throw. *)
Definition status_of (i : info_t) : option (option string) :=
  match i with
  | IFalse => Some None
  | IData DNullish => None
  | IData (DObject rs) => Some rs
  end.

(** The record of [n] is paused, or the answer of the probe and the
    record do not ask for a start. *)
Definition at_rest (r : axios_result) (rec : Streamer) : Prop :=
  paused rec = true \/
  exists rs, status_of (info_of r) = Some rs /\
             bool_decide (rs = Some "public") && negb (recording rec) = false.

(** [updateStreamer] for [n] would only write the log. *)
Definition settled (resp : string -> axios_result) (s : State) (n : string) : Prop :=
  exists rec, streamers s !! n = Some rec /\ meta rec = info_of (resp n) /\
              at_rest (resp n) rec.

(** [s'] is [s] up to the log. *)
Definition log_step (s s' : State) : Prop := s' = set_log (log s') s.

(** The events of a tick: a timer, a direct call of [run], a settled
    probe, the end of the probes. *)
Definition tick_event (ev : event) : Prop :=
  match ev with
  | TimerFired _ | ProbeSettled _ _ | ProbesDone | Api GetRun => True
  | _ => False
  end.

(** * Properties *)

Ltac munfold :=
  unfold mbind, mret, M_bind, M_ret, bind, ret, throw, gets, modify in *.

(** ** The values of [this.streamers[name]] *)

Lemma slot_of_own (m : gmap string Streamer) i name rec :
  m !! name = Some rec -> slot_of m i name = SOwn rec.
Proof. intros H. unfold slot_of. by rewrite H. Qed.

Lemma slot_of_not_own (m : gmap string Streamer) i name :
  m !! name = None ->
  slot_of m i name = SInherited \/ (exists b, slot_of m i name = SBool b) \/
  slot_of m i name = SUndefined.
Proof.
  intros H. unfold slot_of. rewrite H.
  destruct (bool_decide _); [by left|].
  destruct (decide _); [|by right; right].
  destruct (proto_paused i) as [b|]; [right; left; by exists b|by right; right].
Qed.

Lemma slot_of_own_lookup (m : gmap string Streamer) i n r :
  slot_of m i n = SOwn r -> m !! n = Some r.
Proof.
  destruct (m !! n) as [r'|] eqn:Hn.
  - rewrite (slot_of_own _ _ _ _ Hn). congruence.
  - destruct (slot_of_not_own m i n Hn) as [->|[[b ->]| ->]]; discriminate.
Qed.

Lemma slot_of_other_lookup (m : gmap string Streamer) i n sl :
  slot_of m i n = sl -> (forall r, sl <> SOwn r) -> m !! n = None.
Proof.
  intros <- H. destruct (m !! n) as [r|] eqn:Hn; [|done].
  destruct (H r). by apply slot_of_own.
Qed.

Lemma slot_of_ext (m m' : gmap string Streamer) i i' n :
  m' !! n = m !! n -> proto_paused i' = proto_paused i ->
  slot_of m' i' n = slot_of m i n.
Proof. unfold slot_of. by intros -> ->. Qed.

Ltac not_own H :=
  apply slot_of_other_lookup in H; [|intros ?; discriminate].

(** ** What a computation preserves *)

Section Preserves.
Context (P : State -> Prop).

Lemma preserves_ret {A} (a : A) : preserves P (ret a).
Proof. intros s Hs. exact Hs. Qed.

Lemma preserves_mret {A} (a : A) : preserves P (mret a : M A).
Proof. intros s Hs. exact Hs. Qed.

Lemma preserves_throw {A} (e : exn) : preserves P (throw e : M A).
Proof. intros s Hs. exact Hs. Qed.

Lemma preserves_gets {A} (f : State -> A) : preserves P (gets f).
Proof. intros s Hs. exact Hs. Qed.

Lemma preserves_modify (f : State -> State) :
  (forall s, P s -> P (f s)) -> preserves P (modify f).
Proof. intros Hf s Hs. simpl. auto. Qed.

Lemma preserves_bind {A B} (c : M A) (k : A -> M B) :
  preserves P c -> (forall a, preserves P (k a)) -> preserves P (c ≫= k).
Proof.
  intros Hc Hk s Hs. munfold. specialize (Hc s Hs).
  destruct (c s) as [a s'|e s']; simpl in *; [apply Hk|]; done.
Qed.

Lemma preserves_forEach {A} (l : list A) (f : A -> M unit) :
  (forall x, preserves P (f x)) -> preserves P (forEach l f).
Proof.
  intros Hf. induction l as [|x l IH]; simpl.
  - apply preserves_ret.
  - apply preserves_bind; auto.
Qed.
(** Reading a property changes nothing; an assignment rewrites the own
    record of the name, or writes on an inherited object. *)
Lemma preserves_get_streamer name field : preserves P (get_streamer name field).
Proof. intros s Hs. unfold get_streamer. by destruct (slot_of _ _ _). Qed.

Lemma preserves_assign name a :
  (forall s rec, P s -> streamers s !! name = Some rec ->
     P (set_streamers (<[name := assign_rec a rec]> (streamers s)) s)) ->
  (forall s i, P s -> P (set_inherited i s)) ->
  preserves P (assign name a).
Proof.
  intros Hown Hinh s Hs. unfold assign.
  destruct (slot_of _ _ _) as [rec| |b|] eqn:Hsl; simpl; [|by apply Hinh|done|done].
  apply Hown; [done|]. by apply slot_of_own_lookup in Hsl.
Qed.

(** Two assignments in a row to the properties of one name. *)
Lemma preserves_assign_pair name a b :
  (forall s rec, P s -> streamers s !! name = Some rec ->
     P (set_streamers (<[name := assign_rec b (assign_rec a rec)]> (streamers s)) s)) ->
  (forall s i, P s -> P (set_inherited i s)) ->
  preserves P (assign name a;; assign name b).
Proof.
  intros Hown Hinh s Hs. munfold. unfold assign.
  destruct (slot_of _ _ _) as [rec| |b0|] eqn:Hsl; simpl; [| |done|done].
  - apply slot_of_own_lookup in Hsl as Hn.
    rewrite (slot_of_own _ _ _ _ (lookup_insert_eq _ _ _)). simpl.
    rewrite insert_insert_eq. exact (Hown s rec Hs Hn).
  - not_own Hsl.
    match goal with |- context [slot_of ?m ?i name] =>
      destruct (slot_of_not_own m i name Hsl) as [->|[[b1 ->]| ->]] end; simpl;
      [exact (Hinh _ _ (Hinh s _ Hs))|exact (Hinh s _ Hs)..].
Qed.
End Preserves.

(** *** The registry, own records *)

Lemma get_streamer_own s name field rec :
  streamers s !! name = Some rec -> get_streamer name field s = Return rec s.
Proof. intros H. unfold get_streamer. by rewrite (slot_of_own _ _ _ _ H). Qed.

Lemma assign_own s name a rec :
  streamers s !! name = Some rec ->
  assign name a s
  = Return tt (set_streamers (<[name := assign_rec a rec]> (streamers s)) s).
Proof. intros H. unfold assign. by rewrite (slot_of_own _ _ _ _ H). Qed.


Lemma assign_pair_own s name a b rec :
  streamers s !! name = Some rec ->
  (assign name a;; assign name b) s
  = Return tt (set_streamers (<[name := assign_rec b (assign_rec a rec)]> (streamers s)) s).
Proof.
  intros H. munfold. rewrite (assign_own s name a rec H). simpl.
  erewrite assign_own by (simpl; apply lookup_insert_eq).
  simpl. by rewrite insert_insert_eq.
Qed.

Lemma inherited_step_refl s : inherited_step s s.
Proof. by destruct s. Qed.

Lemma assign_not_own s name a :
  streamers s !! name = None -> inherited_step s (state_of (assign name a s)).
Proof.
  intros H. unfold assign.
  destruct (slot_of_not_own _ (inherited s) _ H) as [->|[[b ->]| ->]]; simpl;
    [reflexivity|apply inherited_step_refl..].
Qed.

Lemma assign_pair_not_own s name a b :
  streamers s !! name = None ->
  inherited_step s (state_of ((assign name a;; assign name b) s)).
Proof.
  intros H. munfold. unfold assign.
  destruct (slot_of_not_own _ (inherited s) _ H) as [->|[[b0 ->]| ->]]; simpl;
    [|apply inherited_step_refl..].
  match goal with |- context [slot_of ?m ?i name] =>
    destruct (slot_of_not_own m i name H) as [->|[[b0 ->]| ->]] end; reflexivity.
Qed.

(** Splits a computation along its binds, tests and loops; what is left
    are the state updates. *)
Ltac pres_step :=
  lazymatch goal with
  | |- preserves _ (mbind (fun _ => assign ?n _) (assign ?n _)) =>
      apply preserves_assign_pair; [intros ? ? ? ?|intros ? ? ?]
  | |- preserves _ (mbind _ _) => apply preserves_bind; [|intros ?]
  | |- preserves _ (ret _) => apply preserves_ret
  | |- preserves _ (mret _) => apply preserves_mret
  | |- preserves _ (throw _) => apply preserves_throw
  | |- preserves _ (gets _) => apply preserves_gets
  | |- preserves _ (modify _) => apply preserves_modify; intros ? ?
  | |- preserves _ (forEach _ _) => apply preserves_forEach; intros ?
  | |- preserves _ (get_streamer _ _) => apply preserves_get_streamer
  | |- preserves _ (assign _ _) =>
      apply preserves_assign; [intros ? ? ? ?|intros ? ? ?]
  | |- preserves _ (match ?x with _ => _ end) => destruct x
  end.
Ltac pres := repeat pres_step.

(** ** The API layer (C3) *)

Lemma apiResponse_throw {A} (callback : M A) s e s' :
  callback s = Throw e s' ->
  apiResponse callback s
  = Throw (TypeError "Cannot read properties of undefined (reading 'info')") s'.
Proof. intros H. unfold apiResponse. rewrite H. reflexivity. Qed.

(** No request is ever answered with a failure result. *)
Lemma route_never_failure q s e s' : route q s <> Return (Failure e) s'.
Proof.
  destruct q; simpl; unfold apiResponse;
    match goal with |- context [match ?c s with _ => _ end] => destruct (c s) end;
    discriminate.
Qed.

(** C3, at a failing input: [GET /api/pause] while the bot is not
    running. [pause] throws "Bot not running"; the handler of
    [apiResponse] then throws a [TypeError] of its own, which leaves the
    route instead of a failure result with the reason. *)
Theorem C3_pause_failure_escapes (s : State) :
  running s = false ->
  pause s = Throw (Error "Bot not running") s /\
  route GetPause s
  = Throw (TypeError "Cannot read properties of undefined (reading 'info')") s.
Proof.
  intros Hr.
  assert (Hp : pause s = Throw (Error "Bot not running") s).
  { unfold pause. munfold. rewrite Hr. reflexivity. }
  split; [exact Hp|].
  simpl. apply (apiResponse_throw _ s (Error "Bot not running") s).
  munfold. rewrite Hp. reflexivity.
Qed.

Lemma C3_pause_failure_escapes_witness :
  running st_added = false /\
  route GetPause st_added
  = Throw (TypeError "Cannot read properties of undefined (reading 'info')") st_added.
Proof.
  split; [reflexivity|].
  apply (C3_pause_failure_escapes st_added). reflexivity.
Defined.

(** ** Validation of the administrative calls (C4, C10) *)

(** C4: with a name supplied and a configuration loaded, adding a name
    that is in the configured list throws the duplicate error, and
    removing a name that is not in the configured list (which may be
    empty or missing) throws the not-found error; both leave the whole
    state (configuration, registry, file, timers) as it was. *)
Theorem C4_duplicate_add_absent_remove :
  (forall (s : State) (c : Config) (n : string),
     config s = Some c -> n <> "" ->
     n ∈ default [] (cfg_streamers c) ->
     addStreamer (Some n) s = Throw (Error "Streamer already in streamers list") s) /\
  (forall (s : State) (c : Config) (n : string),
     config s = Some c -> n <> "" ->
     n ∉ default [] (cfg_streamers c) ->
     removeStreamer (Some n) s = Throw (Error "Streamer is not in streamers list") s).
Proof.
  split; intros s c n Hc Hn Hin;
    unfold addStreamer, removeStreamer, require_name, get_config; munfold;
    (destruct (decide (n = "")) as [|_]; [done|]); rewrite Hc.
  - by rewrite (bool_decide_eq_true_2 _ Hin).
  - by rewrite (bool_decide_eq_false_2 _ Hin).
Qed.

Lemma C4_duplicate_add_absent_remove_witness :
  addStreamer (Some "alice") st_idle
  = Throw (Error "Streamer already in streamers list") st_idle /\
  removeStreamer (Some "bob") st_idle
  = Throw (Error "Streamer is not in streamers list") st_idle /\
  removeStreamer (Some "alice") st_no_list
  = Throw (Error "Streamer is not in streamers list") st_no_list.
Proof.
  split; [|split].
  - apply (proj1 C4_duplicate_add_absent_remove st_idle cfg_alice "alice").
    + reflexivity.
    + discriminate.
    + simpl. apply list_elem_of_here.
  - apply (proj2 C4_duplicate_add_absent_remove st_idle cfg_alice "bob").
    + reflexivity.
    + discriminate.
    + simpl. intros H. apply list_elem_of_singleton in H. discriminate.
  - apply (proj2 C4_duplicate_add_absent_remove st_no_list
             (mkConfig None (Some 60%Z) (Some "yt-dlp") None) "alice").
    + reflexivity.
    + discriminate.
    + simpl. apply not_elem_of_nil.
Defined.

Lemma slot_of_undefined (s : State) (n : string) :
  streamers s !! n = None -> ~ inherits s n ->
  slot_of (streamers s) (inherited s) n = SUndefined.
Proof.
  intros Hn Hi. unfold slot_of. rewrite Hn.
  destruct (bool_decide _) eqn:Hb.
  { destruct Hi. left. by apply bool_decide_eq_true in Hb. }
  destruct (decide _) as [->|]; [|done].
  destruct (proto_paused _) eqn:Hp; [|done].
  destruct Hi. right. split; [done|]. by rewrite Hp.
Qed.




(** ** [pauseStreamer] on a name with a record *)

Lemma elem_of_Object_keys (m : gmap string Streamer) (n : string) :
  n ∈ Object_keys m <-> is_Some (m !! n).
Proof. unfold Object_keys. rewrite elem_of_elements. apply elem_of_dom. Qed.

Lemma require_known_record (s : State) (c : Config) (n : string) (r : Streamer) :
  config s = Some c -> streamers s !! n = Some r -> require_known n s = Return tt s.
Proof.
  intros Hc Hr. unfold require_known, get_config. munfold. rewrite Hc.
  assert (Hk : n ∈ Object_keys (streamers s)) by (apply elem_of_Object_keys; eauto).
  rewrite (bool_decide_eq_true_2 _ Hk), andb_false_r. reflexivity.
Qed.

(** [pauseStreamer] on a supplied name with a record, in any state. *)
Lemma pauseStreamer_record (s : State) (c : Config) (n : string) (r : Streamer) :
  config s = Some c -> n <> "" -> streamers s !! n = Some r ->
  exists s',
    pauseStreamer (Some n) s = Return true s' /\
    streamers s' = <[n := mkStreamer (recording r) true (proc r) (meta r)]> (streamers s) /\
    procs s' = match proc r with
               | PChild pid => alter (add_kill "SIGINT") pid (procs s)
               | PNull | PFalse => procs s
               end /\
    log s' = log s ++ [LogInfo ("Pausing streams for " +:+ n)] /\
    config s' = config s /\ running s' = running s /\ timeout s' = timeout s /\
    timers s' = timers s /\ next_timer s' = next_timer s /\ disk s' = disk s /\
    example s' = example s /\ writable s' = writable s /\
    inherited s' = inherited s.
Proof.
  intros Hc Hn Hr.
  unfold pauseStreamer, require_name.
  destruct (decide (n = "")) as [|_]; [done|].
  munfold. rewrite (require_known_record s c n r Hc Hr).
  rewrite (get_streamer_own s n "proc" r Hr).
  unfold kill, log_info. munfold.
  destruct (proc r) as [| |pid] eqn:Hp; simpl;
    (erewrite assign_own by (simpl; exact Hr));
    eexists; (split; [reflexivity|]); simpl; unfold set_paused; rewrite Hp; done.
Qed.

(** C1 as stated fails: "alice" is recording, [pauseStreamer] signals her
    process, and her record is still [recording] when the call returns. *)
Lemma C1_counterexample :
  streamers st_recording !! "alice" = Some (mkStreamer true false (PChild 0) IFalse) /\
  returned (pauseStreamer (Some "alice") st_recording) = true /\
  (kills <$> procs st_recording_paused !! 0) = Some ["SIGINT"] /\
  streamers st_recording_paused !! "alice" = Some (mkStreamer true true (PChild 0) IFalse) /\
  ~ (exists r', streamers st_recording_paused !! "alice" = Some r' /\ recording r' = false).
Proof.
  assert (H : streamers st_recording_paused !! "alice"
              = Some (mkStreamer true true (PChild 0) IFalse))
    by (vm_compute; reflexivity).
  repeat split; try (vm_compute; reflexivity).
  intros (r' & Hr' & Hrec). rewrite H in Hr'. injection Hr' as <-. discriminate.
Qed.

(** ** Frame properties of the tick *)

Ltac bot_unfold :=
  unfold run_sync, run_finish, updateStreamer_k, on_exit, on_error,
    sync_registry, prune_registry, reset_or_delete, checkConfigExists,
    reloadConfig, sync_one, prune_one, get_config_streamers, require_known,
    require_name, get_config, put_streamer, delete_streamer, getInfo_k,
    room_status_of, spawn, kill, setTimeout, clear_own_timeout, writeConfig,
    log_info, log_error.

Lemma preserved_on_return {A} (P : State -> Prop) (c : M A) s a s' :
  preserves P c -> c s = Return a s' -> P s -> P s'.
Proof. intros Hc Hs HP. specialize (Hc s HP). rewrite Hs in Hc. exact Hc. Qed.

Lemma call_run_preserves P : preserves P run_sync -> preserves P call_run.
Proof. intros H s Hs. apply (H s Hs). Qed.

Lemma run_sync_preserves P : sync_stable P -> preserves P run_sync.
Proof.
  intros (H1 & H2 & H3 & H4 & H5 & H6 & H7).
  bot_unfold. pres; auto.
Qed.

Ltac stable := repeat split; intros; simpl in *; intuition.

Lemma run_sync_procs s : procs (state_of (run_sync s)) = procs s.
Proof.
  enough (H : preserves (fun s' => procs s' = procs s) run_sync) by (by apply H).
  apply run_sync_preserves. stable.
Qed.

(** Once set, [running] and [timeout] stay until the [await]. *)
Lemma run_sync_flags s :
  running (state_of (run_sync s)) = true /\
  timeout (state_of (run_sync s)) = TFalse.
Proof.
  assert (H : preserves (fun s' => running s' = true /\ timeout s' = TFalse)
                (checkConfigExists;;
                 reloadConfig;;
                 l ← get_config_streamers "forEach";
                 sync_registry l;;
                 prune_registry l;;
                 gets (fun s => Object_keys (streamers s)))).
  { bot_unfold. pres; auto. }
  specialize (H (set_timeout TFalse (set_running true s)) (conj eq_refl eq_refl)).
  exact H.
Qed.

(** The phases of a [run] that reached its [await]. *)
Lemma run_sync_Return s names s1 :
  run_sync s = Return names s1 ->
  exists sa sb l sd,
    checkConfigExists (set_timeout TFalse (set_running true s)) = Return tt sa /\
    reloadConfig sa = Return tt sb /\
    get_config_streamers "forEach" sb = Return l sb /\
    sync_registry l sb = Return tt sd /\
    prune_registry l sd = Return tt s1 /\
    names = Object_keys (streamers s1).
Proof.
  unfold run_sync. munfold. intros H.
  destruct (checkConfigExists _) as [[] sa|] eqn:Ha; [|discriminate].
  destruct (reloadConfig sa) as [[] sb|] eqn:Hb; [|discriminate].
  destruct (get_config_streamers "forEach" sb) as [l sc|] eqn:Hc; [|discriminate].
  assert (sc = sb) as ->.
  { revert Hc. unfold get_config_streamers, get_config. munfold.
    destruct (config sb) as [c|]; [|discriminate].
    destruct (cfg_streamers c); [|discriminate]. congruence. }
  destruct (sync_registry l sb) as [[] sd|] eqn:Hd; [|discriminate].
  destruct (prune_registry l sd) as [[] se|] eqn:He; [|discriminate].
  injection H as <- <-. by exists sa, sb, l, sd.
Qed.

Lemma get_config_streamers_Return method s l s' :
  get_config_streamers method s = Return l s' ->
  s' = s /\ exists c, config s = Some c /\ cfg_streamers c = Some l.
Proof.
  unfold get_config_streamers, get_config. munfold.
  destruct (config s) as [c|]; [|discriminate].
  destruct (cfg_streamers c) as [l'|] eqn:Hl; [|discriminate].
  intros [= <- <-]. eauto.
Qed.

(** The loops of [run] do not touch the configuration. *)
Lemma loops_preserve_config (c : option Config) l :
  preserves (fun s => config s = c) (sync_registry l) /\
  preserves (fun s => config s = c) (prune_registry l).
Proof. split; bot_unfold; pres; auto. Qed.

Lemma run_sync_config s names s1 :
  run_sync s = Return names s1 ->
  exists c l, config s1 = Some c /\ cfg_streamers c = Some l /\
              disk s1 = Some (Json (Some c)) /\
              names = Object_keys (streamers s1).
Proof.
  intros H. apply run_sync_Return in H as (sa & sb & l & sd & Ha & Hb & Hc & Hd & He & ->).
  apply get_config_streamers_Return in Hc as (_ & c & Hc & Hl).
  exists c, l.
  assert (Hdisk : disk sb = Some (Json (Some c))).
  { revert Hb Hc. unfold reloadConfig, log_info. munfold.
    destruct (disk sa) as [[|c']|] eqn:Hda; try discriminate.
    destruct (decide (c' = config sa)) as [->|_]; intros [= <-]; simpl; congruence. }
  assert (HP : config s1 = Some c /\ disk s1 = Some (Json (Some c))).
  { set (P := fun s' => config s' = Some c /\ disk s' = Some (Json (Some c))).
    apply (preserved_on_return P (prune_registry l) sd tt);
      [bot_unfold; pres; auto|exact He|].
    apply (preserved_on_return P (sync_registry l) sb tt);
      [bot_unfold; pres; auto|exact Hd|].
    done. }
  destruct HP as [? ?]. done.
Qed.

(** ** The sync step (C7) *)


Lemma registry_step_refl s : registry_step s s.
Proof. split; [by destruct s|done]. Qed.

Lemma registry_step_trans s1 s2 s3 :
  registry_step s1 s2 -> registry_step s2 s3 -> registry_step s1 s3.
Proof.
  unfold registry_step. intros [H12 P12] [H23 P23]. split; [|congruence].
  rewrite H23 at 1. rewrite H12 at 1. done.
Qed.

Lemma registry_step_procs s s' : registry_step s s' -> procs s' = procs s.
Proof. by intros [-> _]. Qed.

Lemma registry_step_config s s' : registry_step s s' -> config s' = config s.
Proof. by intros [-> _]. Qed.

Lemma registry_step_disk s s' : registry_step s s' -> disk s' = disk s.
Proof. by intros [-> _]. Qed.

Lemma registry_step_proto s s' :
  registry_step s s' -> proto_paused (inherited s') = proto_paused (inherited s).
Proof. by intros [_ H]. Qed.

Lemma assign_inherited_Return s n a :
  slot_of (streamers s) (inherited s) n = SInherited ->
  assign n a s
  = Return tt (set_inherited (<[n := assign_inherited a (written (inherited s) n)]>
                                (inherited s)) s).
Proof. intros H. unfold assign. by rewrite H. Qed.

(** Writing [recording] or [proc] on an inherited object leaves every
    [paused] as it is. *)
Lemma proto_paused_insert i n x :
  i_paused x = i_paused (written i n) ->
  proto_paused (<[n := x]> i) = proto_paused i.
Proof.
  intros Hx. unfold proto_paused, written in *.
  destruct (decide (n = "__proto__")) as [->|Hne].
  - by rewrite lookup_insert_eq.
  - by rewrite lookup_insert_ne.
Qed.

(** One step of the sync loop: it returns, and writes at most the record
    of its name, an inherited object and the log. *)
Lemma sync_one_spec n s :
  exists s',
    sync_one n s = Return tt s' /\ registry_step s s' /\
    streamers s' !! n = sync_slot (procs s) (streamers s) (inherited s) n /\
    (forall k, k <> n -> streamers s' !! k = streamers s !! k).
Proof.
  unfold sync_one, sync_slot, sync_rec. munfold.
  destruct (slot_of (streamers s) (inherited s) n) as [r| |[|]|] eqn:Hsl; simpl.
  - apply slot_of_own_lookup in Hsl as Hn.
    rewrite (get_streamer_own s n _ r Hn).
    destruct (recording r) eqn:Hrec; simpl.
    + destruct (proc_alive (procs s) (proc r)) eqn:Ha; simpl.
      * exists s. split; [done|]. split; [apply registry_step_refl|]. done.
      * unfold log_info. munfold.
        erewrite assign_own by (simpl; exact Hn). simpl.
        erewrite assign_own by (simpl; apply lookup_insert_eq). simpl.
        eexists. split; [reflexivity|]. split; [split; reflexivity|]. simpl.
        rewrite insert_insert_eq. split.
        -- by rewrite lookup_insert_eq.
        -- intros k Hk. by rewrite lookup_insert_ne.
    + exists s. split; [done|]. split; [apply registry_step_refl|]. done.
  - pose proof Hsl as Hn. not_own Hn.
    unfold get_streamer. rewrite Hsl.
    destruct (recording _); simpl.
    + destruct (proc_alive _ _); simpl.
      * exists s. split; [done|]. split; [apply registry_step_refl|]. done.
      * unfold log_info. munfold.
        rewrite assign_inherited_Return by exact Hsl. simpl.
        rewrite assign_inherited_Return.
        2:{ simpl. rewrite <- Hsl. apply slot_of_ext; [done|].
            by apply proto_paused_insert. }
        simpl. eexists. split; [reflexivity|]. split; [|done].
        split; [reflexivity|]. simpl.
        rewrite proto_paused_insert; [by apply proto_paused_insert|].
        unfold written. by rewrite lookup_insert_eq.
    + exists s. split; [done|]. split; [apply registry_step_refl|]. done.
  - pose proof Hsl as Hn. not_own Hn.
    unfold get_streamer. rewrite Hsl. simpl.
    exists s. split; [done|]. split; [apply registry_step_refl|]. done.
  - unfold log_info, put_streamer. munfold.
    eexists. split; [reflexivity|]. split; [split; reflexivity|]. simpl. split.
    + by rewrite lookup_insert_eq.
    + intros k Hk. by rewrite lookup_insert_ne.
  - unfold log_info, put_streamer. munfold.
    eexists. split; [reflexivity|]. split; [split; reflexivity|]. simpl. split.
    + by rewrite lookup_insert_eq.
    + intros k Hk. by rewrite lookup_insert_ne.
Qed.

Lemma sync_rec_idem ps r : sync_rec ps (sync_rec ps r) = sync_rec ps r.
Proof.
  unfold sync_rec. destruct (recording r && negb (proc_alive ps (proc r))) eqn:H.
  - reflexivity.
  - by rewrite H.
Qed.

Lemma sync_slot_idem ps (m m1 : gmap string Streamer) i i1 n :
  proto_paused i1 = proto_paused i ->
  m1 !! n = sync_slot ps m i n -> sync_slot ps m1 i1 n = sync_slot ps m i n.
Proof.
  intros Hp. unfold sync_slot.
  destruct (slot_of m i n) as [r| |[|]|] eqn:Hsl; intros H1.
  - rewrite (slot_of_own _ _ _ _ H1). by rewrite sync_rec_idem.
  - pose proof Hsl as Hn. not_own Hn.
    rewrite (slot_of_ext m m1 i i1 n); [|congruence|done]. by rewrite Hsl.
  - pose proof Hsl as Hn. not_own Hn.
    rewrite (slot_of_ext m m1 i i1 n); [|congruence|done]. by rewrite Hsl.
  - by rewrite (slot_of_own _ _ _ _ H1).
  - by rewrite (slot_of_own _ _ _ _ H1).
Qed.

(** The sync loop: it returns, and the own record of every name is what
    one visit makes of it. *)
Lemma sync_registry_lookup l s :
  exists s',
    sync_registry l s = Return tt s' /\ registry_step s s' /\
    forall k, streamers s' !! k
              = if decide (k ∈ l) then sync_slot (procs s) (streamers s) (inherited s) k
                else streamers s !! k.
Proof.
  unfold sync_registry. revert s. induction l as [|n l IH]; intros s; simpl.
  - exists s. split; [done|]. split; [apply registry_step_refl|].
    intros k. destruct (decide (k ∈ [])) as [H|_]; [|done].
    by apply elem_of_nil in H.
  - munfold. destruct (sync_one_spec n s) as (s1 & -> & Hst1 & Hn1 & Hk1).
    destruct (IH s1) as (s2 & -> & Hst2 & Hl2).
    rewrite (registry_step_procs _ _ Hst1) in Hl2.
    pose proof (registry_step_proto _ _ Hst1) as Hpp.
    exists s2. split; [done|]. split; [by eapply registry_step_trans|].
    intros k. rewrite Hl2.
    destruct (decide (k = n)) as [->|Hne].
    + rewrite (decide_True (P := n ∈ n :: l)) by apply list_elem_of_here.
      destruct (decide (n ∈ l)); [by apply sync_slot_idem|done].
    + destruct (decide (k ∈ l)) as [Hin|Hnin].
      * rewrite (decide_True (P := k ∈ n :: l)) by (by apply list_elem_of_further).
        unfold sync_slot.
        by rewrite (slot_of_ext (streamers s) (streamers s1) _ _ k (Hk1 k Hne) Hpp).
      * rewrite (decide_False (P := k ∈ n :: l)); [by apply Hk1|].
        intros [Hk|Hk]%elem_of_cons; done.
Qed.




(** ** Probes (C8) and the end of a tick (C2) *)

Lemma updateStreamer_k_preserves P n r :
  update_stable P -> preserves P (updateStreamer_k n r).
Proof. intros (H1 & H2 & H3 & H4). bot_unfold. pres; auto. Qed.

Lemma settle_all_preserves P resp ns s :
  update_stable P -> P s -> P (snd (settle_all resp ns s)).
Proof.
  intros HP. revert s. induction ns as [|n ns IH]; intros s Hs; simpl; [done|].
  pose proof (updateStreamer_k_preserves P n (resp n) HP s Hs) as H.
  destruct (updateStreamer_k n (resp n) s) as [[] s'|e s']; simpl in *; auto.
Qed.

Lemma run_finish_Return s c :
  config s = Some c ->
  exists ms,
    run_finish s
    = Return true (set_timeout (TTimer (next_timer s))
                     (set_timers (<[next_timer s := ms]> (timers s))
                                 (S (next_timer s)) s)).
Proof.
  intros Hc. unfold run_finish, get_config, setTimeout. munfold. rewrite Hc.
  eexists. reflexivity.
Qed.

(** C2, the failing scenario: a tick is in flight ([run] has reached its
    [await]), [pause] is called, then the probes settle and [run]
    resumes and returns. [pause] returns [true] and clears [running],
    but finds no timer to cancel; the resumed [run] sets a new timer
    without looking at [running]. The bot ends up flagged as not running
    while it holds a pending tick, and when that timer fires the loop is
    running again. *)
Theorem C2_pause_in_flight_reschedules
    (s0 s1 s4 : State) (names : list string) (resp : string -> axios_result)
    (b : bool) :
  run_sync s0 = Return names s1 ->
  run_resume resp names (state_of (pause s1)) = Return b s4 ->
  pause s1 = Return true (state_of (pause s1)) /\
  running (state_of (pause s1)) = false /\
  timers (state_of (pause s1)) = timers s1 /\
  running s4 = false /\
  exists id,
    timeout s4 = TTimer id /\ is_Some (timers s4 !! id) /\
    exists s5, step (TimerFired id) s4 = Some s5 /\ running s5 = true.
Proof.
  intros Hrun.
  destruct (run_sync_flags s0) as [Hr Ht]. rewrite Hrun in Hr, Ht. simpl in Hr, Ht.
  destruct (run_sync_config s0 names s1 Hrun) as (c & l & Hc & _).
  assert (Hp : exists s2, pause s1 = Return true s2 /\ running s2 = false
                          /\ timers s2 = timers s1 /\ config s2 = Some c).
  { unfold pause, clear_own_timeout, log_info. munfold.
    rewrite Hr. simpl. rewrite Ht. eexists. split; [reflexivity|]. done. }
  destruct Hp as (s2 & Hp & Hr2 & Ht2 & Hc2). rewrite Hp. simpl.
  unfold run_resume. destruct (settle_all resp names s2) as [[e|] s3] eqn:Hs; [done|].
  intros Hfin.
  assert (H3 : config s3 = Some c /\ running s3 = false).
  { replace s3 with (snd (settle_all resp names s2)) by (by rewrite Hs).
    apply (settle_all_preserves (fun s => config s = Some c /\ running s = false));
      [stable|done]. }
  destruct H3 as [Hc3 Hr3].
  destruct (run_finish_Return s3 c Hc3) as [ms Hfin'].
  rewrite Hfin' in Hfin. injection Hfin as <- <-.
  split; [done|]. split; [done|]. split; [done|]. split; [exact Hr3|].
  exists (next_timer s3). split; [reflexivity|].
  split; [simpl; rewrite lookup_insert_eq; eauto|].
  unfold step. simpl. rewrite lookup_insert_eq.
  eexists. split; [reflexivity|].
  apply run_sync_flags.
Qed.

Lemma C2_pause_in_flight_reschedules_witness :
  running (state_of (pause (state_of (run_sync st_idle)))) = false /\
  exists s4 id,
    run_resume (fun _ => AxiosRejected) ["alice"]
      (state_of (pause (state_of (run_sync st_idle)))) = Return true s4 /\
    running s4 = false /\ timeout s4 = TTimer id /\ is_Some (timers s4 !! id).
Proof.
  destruct (C2_pause_in_flight_reschedules st_idle (state_of (run_sync st_idle))
              (state_of (run_resume (fun _ => AxiosRejected) ["alice"]
                           (state_of (pause (state_of (run_sync st_idle))))))
              ["alice"] (fun _ => AxiosRejected) true)
    as (_ & Hr & _ & Hr4 & id & Ht & Hi & _).
  - vm_compute. reflexivity.
  - vm_compute. reflexivity.
  - split; [exact Hr|]. eexists _, id.
    split; [vm_compute; reflexivity|]. repeat split; assumption.
Defined.

(** [updateStreamer] on a name that has an own record [rec]: the
    assignments rewrite that record. *)
Lemma updateStreamer_k_own (s : State) (n : string) (r : axios_result) (rec : Streamer) :
  streamers s !! n = Some rec ->
  updateStreamer_k n r s
  = (info ← getInfo_k n r;
     put_streamer n (set_meta info rec);;
     if paused rec then ret tt
     else
       rs ← room_status_of info;
       if bool_decide (rs = Some "public") && negb (recording rec) then
         log_info ("Recording starting -- " +:+ n);;
         c ← get_config "recordCmdArgs";
         child ← spawn (recordCmd c)
                   (default [] (recordCmdArgs c) ++ ["https://chaturbate.com/" +:+ n +:+ "/"]) n;
         put_streamer n (mkStreamer true (paused rec) (PChild child) info)
       else ret tt) s.
Proof.
  intros Hn. unfold updateStreamer_k. munfold.
  destruct (getInfo_k n r s) as [info s0|e s0] eqn:Hg; [|reflexivity].
  assert (Hn0 : streamers s0 !! n = Some rec).
  { revert Hg. unfold getInfo_k, log_error. munfold.
    destruct r; intros [= <- <-]; exact Hn. }
  rewrite (assign_own s0 n _ rec Hn0). unfold put_streamer. munfold. simpl.
  erewrite get_streamer_own by (simpl; apply lookup_insert_eq). simpl.
  destruct (paused rec) eqn:Hp; [reflexivity|].
  destruct (room_status_of info _) as [rs s1|e s1] eqn:Hrs; [|reflexivity].
  assert (s1 = set_streamers (<[n:=set_meta info rec]> (streamers s0)) s0) as ->.
  { revert Hrs. unfold room_status_of. munfold.
    destruct info as [|[|rs']]; congruence. }
  destruct (bool_decide (rs = Some "public") && negb (recording rec)); [|reflexivity].
  unfold log_info, get_config, spawn. munfold. simpl.
  destruct (config s0) as [c|]; [|reflexivity]. simpl.
  destruct (recordCmd c) as [cmd|]; [|reflexivity].
  destruct (decide (cmd = "")); [reflexivity|]. simpl.
  erewrite assign_own by (simpl; apply lookup_insert_eq). simpl.
  erewrite assign_own by (simpl; apply lookup_insert_eq). simpl.
  rewrite !insert_insert_eq. unfold set_meta. simpl. by rewrite Hp.
Qed.

(** [updateStreamer] on a name without an own record leaves the own
    records as they are. *)
Lemma updateStreamer_k_not_own (s : State) (n : string) (r : axios_result) :
  streamers s !! n = None ->
  streamers (state_of (updateStreamer_k n r s)) = streamers s.
Proof.
  intros Hn.
  enough (H : preserves (fun s' => streamers s' = streamers s) (updateStreamer_k n r))
    by (by apply H).
  bot_unfold. pres; simpl; try done.
  all: match goal with
       | H : streamers ?s0 = streamers _, H' : streamers ?s0 !! _ = Some _ |- _ =>
           rewrite H, Hn in H'; discriminate
       end.
Qed.

(** [updateStreamer] on a record whose probe was rejected. *)
Lemma updateStreamer_k_rejected (s : State) (n : string) (r : Streamer) :
  streamers s !! n = Some r ->
  updateStreamer_k n AxiosRejected s
  = Return tt
      (set_streamers (<[n := set_meta IFalse r]> (streamers s))
         (set_log (log s ++ [LogError ("Error checking if " +:+ n +:+ " is online")]) s)).
Proof.
  intros Hr. rewrite (updateStreamer_k_own s n _ r Hr).
  bot_unfold. munfold. simpl.
  destruct (paused r); reflexivity.
Qed.

(** C8: the probe of an entity with a record is rejected. [getInfo]
    returns [false] without throwing; [updateStreamer] returns, sets
    [meta] to [false] and changes nothing else in the record, the
    registry, the processes (none is started), the configuration, the
    loop or the timers; and the probes of the tick settle with the
    outcome the other entities give. *)
Theorem C8_probe_failure_isolated
    (s : State) (n : string) (r : Streamer)
    (resp : string -> axios_result) (ns : list string) :
  streamers s !! n = Some r -> resp n = AxiosRejected ->
  (exists s0, getInfo_k n (resp n) s = Return IFalse s0) /\
  exists s',
    updateStreamer_k n (resp n) s = Return tt s' /\
    streamers s' = <[n := mkStreamer (recording r) (paused r) (proc r) IFalse]> (streamers s) /\
    procs s' = procs s /\ config s' = config s /\ running s' = running s /\
    timeout s' = timeout s /\ timers s' = timers s /\
    settle_all resp (n :: ns) s = settle_all resp ns s'.
Proof.
  intros Hr Hn. rewrite Hn. split.
  { eexists. unfold getInfo_k, log_error. munfold. reflexivity. }
  eexists. split; [apply (updateStreamer_k_rejected s n r Hr)|].
  repeat split. simpl. rewrite Hn, (updateStreamer_k_rejected s n r Hr).
  reflexivity.
Qed.

Lemma C8_probe_failure_isolated_witness :
  exists s',
    updateStreamer_k "alice" AxiosRejected st_idle = Return tt s' /\
    streamers s' = <["alice" := mkStreamer false false PNull IFalse]> (streamers st_idle) /\
    procs s' = procs st_idle.
Proof.
  destruct (C8_probe_failure_isolated st_idle "alice"
              (mkStreamer false false PNull IFalse) (fun _ => AxiosRejected) [])
    as (_ & s' & Hu & Hs & Hp & _).
  - reflexivity.
  - reflexivity.
  - exists s'. repeat split; assumption.
Defined.

(** When every probe of a tick is rejected, the tick still completes:
    it returns [true] with the next tick scheduled, and no process has
    been started. *)
Lemma settle_all_rejected (resp : string -> axios_result) (ns : list string) (s : State) :
  (forall n, n ∈ ns -> resp n = AxiosRejected /\ is_Some (streamers s !! n)) ->
  fst (settle_all resp ns s) = None /\
  procs (snd (settle_all resp ns s)) = procs s /\
  config (snd (settle_all resp ns s)) = config s.
Proof.
  revert s. induction ns as [|n ns IH]; intros s H; simpl; [done|].
  destruct (H n) as [Hn [r Hr]]; [apply list_elem_of_here|].
  rewrite Hn, (updateStreamer_k_rejected s n r Hr).
  match goal with |- context [settle_all resp ns ?s1] => specialize (IH s1) end.
  destruct IH as (IH1 & IH2 & IH3); [|done].
  intros m Hm. destruct (H m) as [Hm1 Hm2]; [by apply list_elem_of_further|].
  split; [done|]. simpl.
  destruct (decide (n = m)) as [->|Hne].
  - rewrite lookup_insert_eq. eauto.
  - by rewrite lookup_insert_ne.
Qed.

Lemma tick_all_probes_rejected (resp : string -> axios_result) (s : State) names s1 :
  (forall n, resp n = AxiosRejected) ->
  run_sync s = Return names s1 ->
  exists s2, tick resp s = Return true s2 /\ procs s2 = procs s /\
             exists id, timeout s2 = TTimer id /\ is_Some (timers s2 !! id).
Proof.
  intros Hresp Hrun. unfold tick, run_resume. munfold. rewrite Hrun.
  destruct (run_sync_config s names s1 Hrun) as (c & l & Hc & _ & _ & ->).
  destruct (settle_all_rejected resp (Object_keys (streamers s1)) s1) as (H1 & H2 & H3).
  { intros n Hn. split; [apply Hresp|]. by apply elem_of_Object_keys. }
  destruct (settle_all resp (Object_keys (streamers s1)) s1) as [o s2] eqn:Hs.
  simpl in *. subst o.
  destruct (run_finish_Return s2 c) as [ms Hf]; [congruence|].
  rewrite Hf. eexists. split; [reflexivity|]. split.
  - simpl. rewrite H2. pose proof (run_sync_procs s) as Hp. by rewrite Hrun in Hp.
  - exists (next_timer s2). simpl. rewrite lookup_insert_eq. eauto.
Qed.

(** ** The invariant of the registry (C9) *)

Section InvOn.
Context (m : gmap string Streamer) (ps : list ChildProcess).
Hypothesis HI : Inv_on m ps.

Lemma Inv_on_insert_idle n r' :
  recording r' = false -> (forall pid, proc r' <> PChild pid) ->
  Inv_on (<[n := r']> m) ps.
Proof.
  destruct HI as (Hl & Ho & Hh). intros Hrec Hp. split; [|split].
  - intros k r Hk Hr. destruct (decide (n = k)) as [->|Hne].
    + rewrite lookup_insert_eq in Hk. injection Hk as <-. congruence.
    + rewrite lookup_insert_ne in Hk by done. eauto.
  - intros k r pid Hk Hr. destruct (decide (n = k)) as [->|Hne].
    + rewrite lookup_insert_eq in Hk. injection Hk as <-. by destruct (Hp pid).
    + rewrite lookup_insert_ne in Hk by done. eauto.
  - intros k r pid Hk Hr. destruct (decide (n = k)) as [->|Hne].
    + rewrite lookup_insert_eq in Hk. injection Hk as <-. by destruct (Hp pid).
    + rewrite lookup_insert_ne in Hk by done. eauto.
Qed.

Lemma Inv_on_insert_same n r r' :
  m !! n = Some r -> proc r' = proc r -> recording r' = recording r ->
  Inv_on (<[n := r']> m) ps.
Proof.
  destruct HI as (Hl & Ho & Hh). intros Hn Hp Hrec. split; [|split].
  - intros k r0 Hk Hr. destruct (decide (n = k)) as [->|Hne].
    + rewrite lookup_insert_eq in Hk. injection Hk as <-.
      rewrite Hp. apply (Hl k r Hn). congruence.
    + rewrite lookup_insert_ne in Hk by done. eauto.
  - intros k r0 pid Hk Hr. destruct (decide (n = k)) as [->|Hne].
    + rewrite lookup_insert_eq in Hk. injection Hk as <-.
      apply (Ho k r pid Hn). congruence.
    + rewrite lookup_insert_ne in Hk by done. eauto.
  - intros k r0 pid Hk Hr. destruct (decide (n = k)) as [->|Hne].
    + rewrite lookup_insert_eq in Hk. injection Hk as <-.
      rewrite Hrec. apply (Hh k r pid Hn). congruence.
    + rewrite lookup_insert_ne in Hk by done. eauto.
Qed.

Lemma Inv_on_delete n : Inv_on (delete n m) ps.
Proof.
  destruct HI as (Hl & Ho & Hh). split; [|split].
  - intros k r Hk. apply lookup_delete_Some in Hk as [_ Hk]. eauto.
  - intros k r pid Hk. apply lookup_delete_Some in Hk as [_ Hk]. eauto.
  - intros k r pid Hk. apply lookup_delete_Some in Hk as [_ Hk]. eauto.
Qed.

Lemma Inv_on_kill sig pid : Inv_on m (alter (add_kill sig) pid ps).
Proof.
  destruct HI as (Hl & Ho & Hh).
  assert (Hk : forall q c, ps !! q = Some c ->
            exists c', alter (add_kill sig) pid ps !! q = Some c'
                       /\ reported c' = reported c /\ spawned_for c' = spawned_for c).
  { intros q c Hq. destruct (decide (pid = q)) as [->|Hne].
    - rewrite list_lookup_alter_eq, Hq. by eexists.
    - rewrite list_lookup_alter_ne by done. by exists c. }
  split; [|split; [|exact Hh]].
  - intros k r Hr Hrec. destruct (Hl k r Hr Hrec) as (q & c & Hp & Hq & Hrep).
    destruct (Hk q c Hq) as (c' & Hc' & Hrep' & _).
    exists q, c'. repeat split; congruence.
  - intros k r q Hr Hp. destruct (Ho k r q Hr Hp) as (c & Hq & Hown).
    destruct (Hk q c Hq) as (c' & Hc' & _ & Hown').
    exists c'. split; congruence.
Qed.

(** A process is spawned. *)
Lemma Inv_on_app c : Inv_on m (ps ++ [c]).
Proof.
  destruct HI as (Hl & Ho & Hh).
  assert (Hold : forall q c0, ps !! q = Some c0 -> (ps ++ [c]) !! q = Some c0).
  { intros q c0 Hq. rewrite lookup_app_l; [done|]. by eapply lookup_lt_Some. }
  split; [|split; [|exact Hh]].
  - intros k r Hk Hrec. destruct (Hl k r Hk Hrec) as (q & c0 & ? & ? & ?). eauto 10.
  - intros k r q Hk Hq. destruct (Ho k r q Hk Hq) as (c0 & ? & ?). eauto.
Qed.

(** [spawn] followed by the two assignments to the record. *)
Lemma Inv_on_spawn n r' cmd args :
  proc r' = PChild (length ps) -> recording r' = true ->
  Inv_on (<[n := r']> m) (ps ++ [mkChild cmd args n None [] false]).
Proof.
  destruct HI as (Hl & Ho & Hh). intros Hp Hrec'.
  assert (Hnew : (ps ++ [mkChild cmd args n None [] false]) !! length ps
                 = Some (mkChild cmd args n None [] false)).
  { by rewrite list_lookup_middle. }
  assert (Hold : forall q c, ps !! q = Some c ->
            (ps ++ [mkChild cmd args n None [] false]) !! q = Some c).
  { intros q c Hq. rewrite lookup_app_l; [done|]. by eapply lookup_lt_Some. }
  split; [|split].
  - intros k r Hk Hrec. destruct (decide (n = k)) as [->|Hne].
    + rewrite lookup_insert_eq in Hk. injection Hk as <-. eauto.
    + rewrite lookup_insert_ne in Hk by done.
      destruct (Hl k r Hk Hrec) as (q & c & ? & ? & ?). eauto 10.
  - intros k r q Hk Hq. destruct (decide (n = k)) as [->|Hne].
    + rewrite lookup_insert_eq in Hk. injection Hk as <-.
      rewrite Hp in Hq. injection Hq as <-. eauto.
    + rewrite lookup_insert_ne in Hk by done.
      destruct (Ho k r q Hk Hq) as (c & ? & ?). eauto.
  - intros k r q Hk Hq. destruct (decide (n = k)) as [->|Hne].
    + rewrite lookup_insert_eq in Hk. by injection Hk as <-.
    + rewrite lookup_insert_ne in Hk by done. eauto.
Qed.

(** A process reports, and its observer has reset or deleted the record
    it was spawned for. *)
Lemma Inv_on_reported pid c code m' :
  ps !! pid = Some c ->
  (forall k, k <> spawned_for c -> m' !! k = m !! k) ->
  (forall r, m' !! spawned_for c = Some r ->
             recording r = false /\ forall q, proc r <> PChild q) ->
  Inv_on m' (alter (mark_reported code) pid ps).
Proof.
  destruct HI as (Hl & Ho & Hh). intros Hc Hother Hown.
  assert (Hk : forall q c0, ps !! q = Some c0 -> spawned_for c0 <> spawned_for c ->
            alter (mark_reported code) pid ps !! q = Some c0).
  { intros q c0 Hq Hne. rewrite list_lookup_alter_ne; [done|]. congruence. }
  split; [|split].
  - intros k r Hr Hrec. destruct (decide (k = spawned_for c)) as [->|Hne].
    + destruct (Hown r Hr). congruence.
    + rewrite Hother in Hr by done.
      destruct (Hl k r Hr Hrec) as (q & c0 & Hp & Hq & Hrep).
      destruct (Ho k r q Hr Hp) as (c1 & Hq1 & Hown1).
      exists q, c0. repeat split; [done| |done].
      apply Hk; [done|]. congruence.
  - intros k r q Hr Hp. destruct (decide (k = spawned_for c)) as [->|Hne].
    + destruct (Hown r Hr) as [_ H]. by destruct (H q).
    + rewrite Hother in Hr by done.
      destruct (Ho k r q Hr Hp) as (c1 & Hq1 & Hown1).
      exists c1. split; [|done]. apply Hk; [done|]. congruence.
  - intros k r q Hr Hp. destruct (decide (k = spawned_for c)) as [->|Hne].
    + destruct (Hown r Hr) as [_ H]. by destruct (H q).
    + rewrite Hother in Hr by done. eauto.
Qed.
End InvOn.

Lemma Inv_on_empty ps : Inv_on ∅ ps.
Proof.
  split; [|split]; intros n r; [intros H|intros pid H|intros pid H];
    by rewrite lookup_empty in H.
Qed.

(** *** Every operation keeps the invariant *)

Ltac inv_leaf :=
  unfold Inv in *; simpl in *;
  first
    [ assumption
    | apply Inv_on_insert_idle; [assumption|reflexivity|discriminate]
    | eapply Inv_on_insert_same; [assumption|eassumption|reflexivity|reflexivity]
    | apply Inv_on_delete; assumption
    | apply Inv_on_kill; assumption ].

Lemma run_sync_Inv : preserves Inv run_sync.
Proof. bot_unfold. pres; inv_leaf. Qed.

Lemma call_run_Inv : preserves Inv call_run.
Proof. apply call_run_preserves, run_sync_Inv. Qed.

Lemma pause_Inv : preserves Inv pause.
Proof. unfold pause. bot_unfold. pres; inv_leaf. Qed.

Lemma run_finish_Inv : preserves Inv run_finish.
Proof. bot_unfold. pres; inv_leaf. Qed.

Lemma removeStreamer_Inv n : preserves Inv (removeStreamer n).
Proof. unfold removeStreamer. bot_unfold. pres; inv_leaf. Qed.

Lemma updateStreamer_k_Inv n r : preserves Inv (updateStreamer_k n r).
Proof.
  intros s HI. destruct (streamers s !! n) as [rec|] eqn:Hn.
  - rewrite (updateStreamer_k_own s n r rec Hn). bot_unfold. munfold.
    destruct r as [|d]; simpl.
    + assert (Inv_on (<[n:=set_meta IFalse rec]> (streamers s)) (procs s))
        by (by apply (Inv_on_insert_same _ _ HI n rec)).
      destruct (paused rec); simpl; assumption.
    + assert (Inv_on (<[n:=set_meta (IData d) rec]> (streamers s)) (procs s))
        by (by apply (Inv_on_insert_same _ _ HI n rec)).
      destruct (paused rec); simpl; [assumption|].
      destruct d as [|rs]; simpl; [assumption|].
      destruct (bool_decide (rs = Some "public") && negb (recording rec)); simpl; [|assumption].
      destruct (config s) as [c|]; simpl; [|assumption].
      destruct (recordCmd c) as [cmd|]; simpl; [|assumption].
      destruct (decide (cmd = "")); simpl; [assumption|].
      unfold Inv. simpl. rewrite insert_insert_eq.
      by apply Inv_on_spawn.
  - unfold Inv. rewrite (updateStreamer_k_not_own s n r Hn).
    set (P := fun s' : State => Inv_on (streamers s) (procs s')).
    enough (H : preserves P (updateStreamer_k n r)) by (by apply H).
    bot_unfold. pres; unfold P in *; simpl in *; try assumption.
    by apply Inv_on_app.
Qed.

Ltac admin_unfold :=
  unfold require_name, require_known, get_config, clear_own_timeout,
    writeConfig, kill, log_info.

Lemma addStreamer_Inv n : preserves Inv (addStreamer n).
Proof.
  unfold addStreamer. admin_unfold. pres; try inv_leaf. all: apply call_run_Inv.
Qed.

Lemma pauseStreamer_Inv n : preserves Inv (pauseStreamer n).
Proof. unfold pauseStreamer. admin_unfold. pres; inv_leaf. Qed.

Lemma resumeStreamer_Inv n : preserves Inv (resumeStreamer n).
Proof.
  unfold resumeStreamer. admin_unfold. pres; try inv_leaf. all: apply call_run_Inv.
Qed.

Lemma state_of_apiResponse {A} (c : M A) s :
  state_of (apiResponse c s) = state_of (c s).
Proof. unfold apiResponse. by destruct (c s). Qed.

Lemma route_Inv q : preserves Inv (route q).
Proof.
  intros s HI. destruct q; unfold route; rewrite state_of_apiResponse; revert s HI;
    match goal with |- forall s, Inv s -> Inv (state_of (?c s)) =>
      change (preserves Inv c) end.
  - unfold getStatus. pres.
  - pres. apply pause_Inv.
  - pres. apply call_run_Inv.
  - pres. apply addStreamer_Inv.
  - pres. apply removeStreamer_Inv.
  - pres. apply pauseStreamer_Inv.
  - pres. apply resumeStreamer_Inv.
Qed.

(** What the body of the observers leaves, when it returns. *)
Lemma reset_or_delete_Return name s s' :
  reset_or_delete name s = Return tt s' ->
  procs s' = procs s /\ config s' = config s /\
  (forall k, k <> name -> streamers s' !! k = streamers s !! k) /\
  (forall r, streamers s' !! name = Some r ->
             recording r = false /\ forall q, proc r <> PChild q) /\
  (name ∉ configured s -> streamers s' !! name = None).
Proof.
  unfold reset_or_delete, get_config_streamers, get_config, configured. munfold.
  destruct (config s) as [cfg|] eqn:Hcfg; [|discriminate].
  destruct (cfg_streamers cfg) as [l|]; [|discriminate]. simpl.
  destruct (bool_decide (name ∈ l)) eqn:Hin.
  - apply bool_decide_eq_true in Hin.
    destruct (streamers s !! name) as [rec|] eqn:Hn.
    + rewrite (assign_own s name _ rec Hn).
      erewrite assign_own by (simpl; apply lookup_insert_eq).
      intros [= <-]. simpl. rewrite insert_insert_eq.
      split; [done|]. split; [done|]. split; [|split].
      * intros k Hk. by rewrite lookup_insert_ne.
      * intros r. rewrite lookup_insert_eq. intros [= <-]. done.
      * done.
    + pose proof (assign_pair_not_own s name (SetProc PFalse) (SetRecording false) Hn) as Hst.
      revert Hst. munfold. intros Hst Hret. rewrite Hret in Hst. simpl in Hst.
      rewrite Hst. simpl. split; [done|]. split; [done|]. split; [done|].
      rewrite Hn. split; [done|]. done.
  - apply bool_decide_eq_false in Hin.
    destruct (truthy (slot_of (streamers s) (inherited s) name)) eqn:Htr;
      unfold delete_streamer; munfold; intros [= <-]; simpl.
    + split; [done|]. split; [done|]. split; [|split].
      * intros k Hk. by rewrite lookup_delete_ne.
      * intros r. by rewrite lookup_delete_eq.
      * intros _. apply lookup_delete_eq.
    + assert (Hn : streamers s !! name = None).
      { destruct (streamers s !! name) as [r|] eqn:Hn; [|done].
        by rewrite (slot_of_own _ _ _ _ Hn) in Htr. }
      split; [done|]. split; [done|]. split; [done|]. rewrite Hn. done.
Qed.

Lemma reset_or_delete_reported s pid c code s' :
  Inv s -> procs s !! pid = Some c -> streamers s' = streamers s ->
  forall s'', reset_or_delete (spawned_for c) s' = Return tt s'' ->
    Inv_on (streamers s'') (alter (mark_reported code) pid (procs s)) /\ procs s'' = procs s'.
Proof.
  intros HI Hc Hs s'' Hret.
  apply reset_or_delete_Return in Hret as (Hp & _ & Hother & Hown & _).
  split; [|done].
  apply (Inv_on_reported _ _ HI pid c code); [done| |done].
  intros k Hk. rewrite <- Hs. by apply Hother.
Qed.

Lemma step_Inv ev s s' : Inv s -> step ev s = Some s' -> Inv s'.
Proof.
  intros HI. destruct ev as [q|id|n r| |pid code|pid|d|w|]; simpl;
    [| | | | | | | |by destruct (stop s)].
  - intros [= <-]. by apply route_Inv.
  - destruct (timers s !! id); [|done]. intros [= <-]. by apply call_run_Inv.
  - intros [= <-]. by apply updateStreamer_k_Inv.
  - intros [= <-]. by apply run_finish_Inv.
  - destruct (procs s !! pid) as [c|] eqn:Hc; [|done].
    unfold on_exit, log_info. munfold.
    destruct (reset_or_delete _ _) as [[] s''|] eqn:Hrd; [|done].
    intros [= <-].
    pose proof (fun H => reset_or_delete_reported s pid c code _ HI Hc H _ Hrd) as HR.
    destruct (HR eq_refl) as [H1 H2].
    unfold Inv. rewrite H2. exact H1.
  - destruct (procs s !! pid) as [c|] eqn:Hc; [|done].
    unfold on_error, log_info, kill. munfold.
    destruct (reset_or_delete _ _) as [[] s''|] eqn:Hrd; [|done].
    intros [= <-].
    pose proof (fun H => reset_or_delete_reported s pid c (exitCode c) _ HI Hc H _ Hrd)
      as HR.
    destruct (HR eq_refl) as [H1 H2].
    unfold Inv. rewrite H2. simpl. by apply Inv_on_kill.
  - intros [= <-]. exact HI.
  - intros [= <-]. exact HI.
Qed.

Lemma steps_Inv evs s s' : Inv s -> steps evs s = Some s' -> Inv s'.
Proof.
  revert s. induction evs as [|ev evs IH]; intros s HI; simpl.
  - by intros [= <-].
  - destruct (step ev s) as [s1|] eqn:Hs; [|done].
    apply IH. by apply (step_Inv ev s).
Qed.

Lemma init_Inv d e w : Inv (init d e w).
Proof. apply Inv_on_empty. Qed.

(** C9: in every state the bot reaches from its construction, through
    any sequence of administrative requests, timers, settled probes,
    ends of ticks, process exits and errors, and changes of the
    configuration file, a record flagged as recording holds the handle
    of a process, and that process has not reported [exit] or [error]. *)
Theorem C9_recording_implies_live_process
    (evs : list event) (d e : option file) (w : bool) (s : State) :
  steps evs (init d e w) = Some s ->
  forall n r, streamers s !! n = Some r -> recording r = true ->
    exists pid c, proc r = PChild pid /\ procs s !! pid = Some c /\ reported c = false.
Proof.
  intros Hs. apply (steps_Inv evs (init d e w) s (init_Inv d e w) Hs).
Qed.

Lemma C9_recording_implies_live_process_witness :
  streamers st_alice_live !! "alice" = Some (mkStreamer true false (PChild 0)
                                       (IData (DObject (Some "public")))) /\
  exists pid c, PChild 0 = PChild pid /\ procs st_alice_live !! pid = Some c
                /\ reported c = false.
Proof.
  assert (Hl : streamers st_alice_live !! "alice"
               = Some (mkStreamer true false (PChild 0) (IData (DObject (Some "public")))))
    by (vm_compute; reflexivity).
  split; [exact Hl|].
  apply (C9_recording_implies_live_process trace_alice_live
           (Some (Json (Some cfg_alice))) None true st_alice_live
           ltac:(vm_compute; reflexivity) "alice" _ Hl).
  reflexivity.
Defined.

(** ** Pausing an entity (C1) *)

(** C1, with the record as the call leaves it: in every state the bot
    reaches, with a configuration loaded, [pauseStreamer] on a supplied
    name that has a record returns [true], sets [paused] in that record,
    writes one line in the log, and leaves [recording], [proc] and
    [meta] of the record, the other records, the configuration, the
    loop, the timers, the files and the inherited objects as they were.
    When the record is flagged as recording, it holds the handle of a
    process, that process (and no other) is sent SIGINT, and the record
    is still flagged as recording when the call returns. When it is
    not, no process is signalled. *)
Theorem C1_pause_signals_sets_paused
    (evs : list event) (d e : option file) (w : bool)
    (s : State) (c : Config) (n : string) (r : Streamer) :
  steps evs (init d e w) = Some s ->
  config s = Some c -> n <> "" -> streamers s !! n = Some r ->
  exists s',
    pauseStreamer (Some n) s = Return true s' /\
    streamers s' = <[n := mkStreamer (recording r) true (proc r) (meta r)]> (streamers s) /\
    log s' = log s ++ [LogInfo ("Pausing streams for " +:+ n)] /\
    config s' = config s /\ running s' = running s /\ timeout s' = timeout s /\
    timers s' = timers s /\ next_timer s' = next_timer s /\ disk s' = disk s /\
    example s' = example s /\ writable s' = writable s /\
    inherited s' = inherited s /\
    (recording r = true ->
       exists pid ch,
         proc r = PChild pid /\ procs s !! pid = Some ch /\
         procs s' = alter (add_kill "SIGINT") pid (procs s) /\
         procs s' !! pid = Some (add_kill "SIGINT" ch)) /\
    (recording r = false -> procs s' = procs s).
Proof.
  intros Hsteps Hc Hn Hr.
  destruct (steps_Inv evs (init d e w) s (init_Inv d e w) Hsteps) as (Hl & _ & Hh).
  destruct (pauseStreamer_record s c n r Hc Hn Hr)
    as (s' & Hp & Hs & Hps & H0 & H1 & H2 & H3 & H4 & H5 & H6 & H7 & H8 & H9).
  exists s'. repeat (split; [assumption|]). split.
  - intros Hrec. destruct (Hl n r Hr Hrec) as (pid & ch & Hproc & Hch & _).
    exists pid, ch. rewrite Hproc in Hps. split; [done|]. split; [done|].
    split; [done|]. by rewrite Hps, list_lookup_alter_eq, Hch.
  - intros Hrec. destruct (proc r) as [| |pid] eqn:Hproc; [done|done|].
    rewrite (Hh n r pid Hr Hproc) in Hrec. discriminate.
Qed.

Lemma C1_pause_signals_sets_paused_witness :
  exists s',
    pauseStreamer (Some "alice") st_alice_live = Return true s' /\
    streamers s' !! "alice"
    = Some (mkStreamer true true (PChild 0) (IData (DObject (Some "public")))) /\
    (kills <$> procs s' !! 0) = Some ["SIGINT"].
Proof.
  destruct (C1_pause_signals_sets_paused trace_alice_live
              (Some (Json (Some cfg_alice))) None true st_alice_live cfg_alice "alice"
              (mkStreamer true false (PChild 0) (IData (DObject (Some "public")))))
    as (s' & Hp & Hs & _ & _ & _ & _ & _ & _ & _ & _ & _ & _ & Hrec & _).
  - vm_compute. reflexivity.
  - vm_compute. reflexivity.
  - discriminate.
  - vm_compute. reflexivity.
  - exists s'. split; [exact Hp|]. split.
    + rewrite Hs. apply lookup_insert_eq.
    + destruct (Hrec eq_refl) as (pid & ch & Hpid & Hch & _ & Hk).
      injection Hpid as <-.
      assert (Hch' : ch = child_alice).
      { assert (H0 : procs st_alice_live !! 0 = Some child_alice)
          by (vm_compute; reflexivity).
        rewrite H0 in Hch. by injection Hch. }
      rewrite Hk, Hch'. reflexivity.
Defined.

(** ** Removal of a recording entity (C5) *)


Section Keeps.
Context (E : string) (p : proc_t).









End Keeps.

Section KeepsOps.
Context (E : string) (p : proc_t).

Ltac keeps_leaf := unfold keeps in *; simpl in *; assumption.

Lemma pause_keeps : preserves (keeps E p) pause.
Proof. unfold pause. bot_unfold. pres; keeps_leaf. Qed.


Lemma removeStreamer_keeps n : preserves (keeps E p) (removeStreamer n).
Proof. unfold removeStreamer. bot_unfold. pres; keeps_leaf. Qed.


End KeepsOps.


Local Opaque run_sync.









Local Transparent run_sync.

Section Draining.
Context (E : string) (p : proc_t).





End Draining.

(** A tick sends no signal and forgets no process: it leaves every
    process of the table as it is. *)
Lemma tick_event_keeps_processes ev s s' :
  tick_event ev -> step ev s = Some s' ->
  forall pid c, procs s !! pid = Some c -> procs s' !! pid = Some c.
Proof.
  intros Hev Hstep pid c Hc.
  set (P := fun s' : State => procs s' !! pid = Some c).
  assert (Hrun : forall s0, P s0 -> P (state_of (run_sync s0))).
  { intros s0 H0. unfold P. by rewrite run_sync_procs. }
  assert (Hup : forall n r, preserves P (updateStreamer_k n r)).
  { intros n r. bot_unfold. pres; unfold P in *; simpl; try done.
    by apply lookup_app_l_Some. }
  destruct ev as [[]|id|n r| | | | | |]; try done; unfold step in Hstep.
  - injection Hstep as <-. by apply Hrun.
  - destruct (timers s !! id); [|done]. injection Hstep as <-. by apply Hrun.
  - injection Hstep as <-. by apply Hup.
  - injection Hstep as <-.
    assert (Hf : preserves P run_finish) by (bot_unfold; pres; done).
    by apply Hf.
Qed.





(** ** Two ticks in a row (C6) *)

(** *** The sync loop *)

Lemma synced_ext ps (m m' : gmap string Streamer) i i' n :
  m' !! n = m !! n -> proto_paused i' = proto_paused i ->
  synced ps m i n -> synced ps m' i' n.
Proof.
  intros Hm Hp. unfold synced. by rewrite Hm, (slot_of_ext m m' i i' n Hm Hp).
Qed.

Lemma synced_sync_slot ps (m : gmap string Streamer) i n :
  synced ps m i n -> sync_slot ps m i n = m !! n.
Proof.
  intros [(r & Hr & Hal)|[Hn Ht]]; unfold sync_slot.
  - rewrite (slot_of_own _ _ _ _ Hr), Hr. f_equal. unfold sync_rec.
    destruct (recording r); [|done]. by rewrite Hal.
  - rewrite Hn. destruct (slot_of_not_own m i n Hn) as [H|[[b H]|H]];
      rewrite H in *; simpl in Ht; [done| |done]. by subst b.
Qed.

Lemma sync_slot_synced ps (m m' : gmap string Streamer) i i' n :
  proto_paused i' = proto_paused i ->
  m' !! n = sync_slot ps m i n -> synced ps m' i' n.
Proof.
  intros Hp. unfold sync_slot.
  destruct (slot_of m i n) as [r| |[|]|] eqn:Hsl; intros H.
  - left. exists (sync_rec ps r). split; [done|]. unfold sync_rec.
    destruct (recording r) eqn:Hrec; simpl; [|by rewrite Hrec].
    destruct (proc_alive ps (proc r)) eqn:Ha; simpl; [done|done].
  - right. split; [done|]. pose proof Hsl as Hn. not_own Hn.
    rewrite (slot_of_ext m m' i i' n); [by rewrite Hsl|congruence|done].
  - right. split; [done|]. pose proof Hsl as Hn. not_own Hn.
    rewrite (slot_of_ext m m' i i' n); [by rewrite Hsl|congruence|done].
  - left. eexists. split; [exact H|done].
  - left. eexists. split; [exact H|done].
Qed.

Lemma sync_registry_spec l s :
  exists s',
    sync_registry l s = Return tt s' /\ registry_step s s' /\
    (forall n, n ∈ l -> synced (procs s) (streamers s') (inherited s') n) /\
    (forall k, k ∉ l -> streamers s' !! k = streamers s !! k) /\
    ((forall n, n ∈ l -> synced (procs s) (streamers s) (inherited s) n) ->
     streamers s' = streamers s).
Proof.
  destruct (sync_registry_lookup l s) as (s' & Hs' & Hst & Hl).
  exists s'. split; [done|]. split; [done|]. split; [|split].
  - intros n Hn. apply (sync_slot_synced _ (streamers s) _ (inherited s)).
    + by apply registry_step_proto.
    + by rewrite Hl, (decide_True (P := n ∈ l)).
  - intros k Hk. by rewrite Hl, (decide_False (P := k ∈ l)).
  - intros Hall. apply map_eq. intros k. rewrite Hl.
    destruct (decide (k ∈ l)) as [Hk|Hk]; [|done].
    by apply synced_sync_slot, Hall.
Qed.

(** *** The prune loop *)

Lemma prune_one_spec k s r :
  streamers s !! k = Some r ->
  exists s',
    prune_one k s = Return tt s' /\ registry_step s s' /\
    streamers s' = if recording r then streamers s else delete k (streamers s).
Proof.
  intros Hk. unfold prune_one, log_info, delete_streamer. munfold.
  erewrite get_streamer_own by (simpl; exact Hk). simpl.
  destruct (recording r); eexists; (split; [reflexivity|]);
    (split; [split; reflexivity|reflexivity]).
Qed.

Lemma prune_loop_spec ks s :
  NoDup ks -> (forall k, k ∈ ks -> is_Some (streamers s !! k)) ->
  exists s',
    forEach ks prune_one s = Return tt s' /\ registry_step s s' /\
    (forall k, k ∉ ks -> streamers s' !! k = streamers s !! k) /\
    (forall k r, k ∈ ks -> streamers s !! k = Some r ->
                 streamers s' !! k = if recording r then Some r else None).
Proof.
  revert s. induction ks as [|k ks IH]; intros s Hnd Hks; simpl.
  - exists s. split; [done|]. split; [apply registry_step_refl|].
    split; [done|]. by intros k r H%elem_of_nil.
  - apply NoDup_cons in Hnd as [Hk Hnd].
    destruct (Hks k) as [r Hr]; [apply list_elem_of_here|].
    munfold. destruct (prune_one_spec k s r Hr) as (s1 & -> & Hst1 & Hs1).
    assert (Hother : forall j, j <> k -> streamers s1 !! j = streamers s !! j).
    { intros j Hj. rewrite Hs1. destruct (recording r); [done|].
      by rewrite lookup_delete_ne. }
    destruct (IH s1 Hnd) as (s2 & -> & Hst2 & Hout & Hin).
    { intros j Hj. rewrite Hother; [by apply Hks, list_elem_of_further|].
      intros ->. done. }
    exists s2. split; [done|]. split; [by eapply registry_step_trans|]. split.
    + intros j Hj. apply not_elem_of_cons in Hj as [Hne Hj].
      rewrite Hout by done. by apply Hother.
    + intros j rj Hj Hrj. apply elem_of_cons in Hj as [->|Hj].
      * rewrite Hout by done. rewrite Hs1. rewrite Hr in Hrj. injection Hrj as <-.
        destruct (recording r); [done|]. apply lookup_delete_eq.
      * apply Hin; [done|]. rewrite Hother; [done|]. intros ->. done.
Qed.

Lemma prune_registry_spec l s :
  exists s',
    prune_registry l s = Return tt s' /\ registry_step s s' /\
    (forall k, k ∈ l -> streamers s' !! k = streamers s !! k) /\
    (forall k r, streamers s' !! k = Some r ->
                 streamers s !! k = Some r /\ (k ∉ l -> recording r = true)) /\
    ((forall k r, streamers s !! k = Some r -> k ∉ l -> recording r = true) ->
     streamers s' = streamers s).
Proof.
  unfold prune_registry. munfold.
  set (ks := filter (fun name => name ∉ l) (Object_keys (streamers s))).
  assert (Hks : forall k, k ∈ ks <-> (k ∉ l) /\ is_Some (streamers s !! k)).
  { intros k. unfold ks. rewrite list_elem_of_filter, elem_of_Object_keys. done. }
  destruct (prune_loop_spec ks s) as (s' & -> & Hst & Hout & Hin).
  { apply NoDup_filter. unfold Object_keys. apply NoDup_elements. }
  { intros k Hk. by apply Hks. }
  assert (Hlook : forall k, streamers s' !! k
            = match streamers s !! k with
              | Some r => if decide (k ∈ l) then Some r
                          else if recording r then Some r else None
              | None => None
              end).
  { intros k. destruct (streamers s !! k) as [r|] eqn:Hr.
    - destruct (decide (k ∈ l)) as [Hl|Hl].
      + rewrite Hout; [done|]. rewrite Hks. tauto.
      + apply Hin; [|done]. apply Hks. eauto.
    - rewrite Hout; [done|]. rewrite Hks, Hr. intros [_ []]. done. }
  exists s'. split; [done|]. split; [done|]. split; [|split].
  - intros k Hk. rewrite Hlook. destruct (streamers s !! k); [|done].
    by destruct (decide (k ∈ l)).
  - intros k r. rewrite Hlook. destruct (streamers s !! k) as [r0|]; [|done].
    destruct (decide (k ∈ l)).
    + intros [= <-]. done.
    + destruct (recording r0) eqn:Hrec; [|done]. intros [= <-]. done.
  - intros HC. apply map_eq. intros k. rewrite Hlook.
    destruct (streamers s !! k) as [r|] eqn:Hr; [|done].
    destruct (decide (k ∈ l)); [done|]. by rewrite (HC k r Hr).
Qed.

(** *** [run] up to its [await] *)

Lemma run_sync_tidy s names sa :
  run_sync s = Return names sa ->
  exists c l,
    config sa = Some c /\ cfg_streamers c = Some l /\
    disk sa = Some (Json (Some c)) /\ tidy l sa /\
    names = Object_keys (streamers sa).
Proof.
  intros Hrun.
  destruct (run_sync_config s names sa Hrun) as (c & l & Hc & Hl & Hd & Hn).
  exists c, l. repeat (split; [done|]). split; [|done].
  apply run_sync_Return in Hrun as (s0 & sb & l' & sd & _ & _ & Hg & Hsy & Hpr & _).
  apply get_config_streamers_Return in Hg as (_ & c' & Hc' & Hl').
  destruct (sync_registry_spec l' sb) as (sd' & Hsy' & Hst1 & Hin1 & _).
  rewrite Hsy in Hsy'. injection Hsy' as <-.
  destruct (prune_registry_spec l' sd) as (sa' & Hpr' & Hst2 & Hin2 & Hout2 & _).
  rewrite Hpr in Hpr'. injection Hpr' as <-.
  assert (l' = l) as ->.
  { rewrite <- (registry_step_config _ _ Hst1), <- (registry_step_config _ _ Hst2) in Hc'.
    congruence. }
  split.
  - intros n Hn'.
    rewrite (registry_step_procs _ _ Hst2), (registry_step_procs _ _ Hst1).
    apply (synced_ext _ (streamers sd) _ (inherited sd));
      [by apply Hin2|by apply registry_step_proto|by apply Hin1].
  - intros k r Hk Hnl. by apply (Hout2 k r Hk).
Qed.

(** On a tidy registry, with the configuration that is on disk, [run]
    reaches its [await] and has changed neither the registry nor the
    processes. *)
Lemma run_sync_again s c l :
  config s = Some c -> cfg_streamers c = Some l ->
  disk s = Some (Json (Some c)) -> tidy l s ->
  exists s',
    run_sync s = Return (Object_keys (streamers s)) s' /\
    streamers s' = streamers s /\ procs s' = procs s /\
    config s' = config s /\ disk s' = disk s.
Proof.
  intros Hc Hl Hd [Hin Hout].
  unfold run_sync, checkConfigExists, reloadConfig, get_config_streamers, get_config.
  munfold. simpl.
  repeat (first [rewrite Hd | rewrite Hc | rewrite Hl
                | destruct (decide (Some c = Some c)) as [_|]; [|done]]; simpl).
  set (s0 := set_timeout TFalse (set_running true s)).
  destruct (sync_registry_spec l s0) as (s1 & -> & Hst1 & _ & _ & Hid).
  specialize (Hid Hin).
  destruct (prune_registry_spec l s1) as (s2 & -> & Hst2 & _ & _ & Hsame).
  assert (Hs2 : streamers s2 = streamers s).
  { rewrite Hsame; [exact Hid|]. intros k r. rewrite Hid. apply Hout. }
  exists s2. rewrite Hs2. split; [done|]. split; [done|].
  split; [by rewrite (registry_step_procs _ _ Hst2), (registry_step_procs _ _ Hst1)|].
  split; [by rewrite (registry_step_config _ _ Hst2), (registry_step_config _ _ Hst1)|].
  by rewrite (registry_step_disk _ _ Hst2), (registry_step_disk _ _ Hst1).
Qed.

(** *** Settled probes *)

Lemma updateStreamer_k_cases n r s s' rec :
  streamers s !! n = Some rec ->
  updateStreamer_k n r s = Return tt s' ->
  config s' = config s /\ disk s' = disk s /\ inherited s' = inherited s /\
  ((streamers s' = <[n := set_meta (info_of r) rec]> (streamers s) /\
    procs s' = procs s /\ at_rest r rec)
   \/
   (exists c, recording rec = false /\ exitCode c = None /\
              status_of (info_of r) = Some (Some "public") /\
              procs s' = procs s ++ [c] /\
              streamers s'
              = <[n := set_recording true
                         (set_proc (PChild (length (procs s)))
                                   (set_meta (info_of r) rec))]> (streamers s))).
Proof.
  intros Hn. rewrite (updateStreamer_k_own s n r rec Hn).
  bot_unfold. munfold.
  destruct r as [|d]; simpl;
    (destruct (paused rec) eqn:Hp; simpl;
     [intros [= <-]; simpl; split; [done|]; split; [done|];
      split; [done|]; left; split; [done|]; split; [done|]; by left|]).
  - intros [= <-]. simpl. split; [done|]. split; [done|].
    split; [done|]. left. split; [done|]. split; [done|]. right. by exists None.
  - destruct d as [|rs]; simpl; [done|].
    destruct (bool_decide (rs = Some "public") && negb (recording rec)) eqn:Hcond; simpl.
    + destruct (config s) as [c|] eqn:Hc; simpl; [|done].
      destruct (recordCmd c) as [cmd|]; simpl; [|done].
      destruct (decide (cmd = "")); simpl; [done|].
      intros [= <-]. simpl. split; [done|]. split; [done|].
      split; [done|]. right.
      eexists. simpl. rewrite insert_insert_eq.
      apply andb_true_iff in Hcond as [Hpub%bool_decide_eq_true Hrec%negb_true_iff].
      split; [done|]. split; [|split; [by rewrite Hpub|split; [reflexivity|]]].
      2: unfold set_recording, set_proc, set_meta; simpl; by rewrite Hp.
      reflexivity.
    + intros [= <-]. simpl. split; [done|]. split; [done|].
      split; [done|]. left. split; [done|]. split; [done|]. right. by exists rs.
Qed.

Lemma updateStreamer_k_settled resp n s :
  settled resp s n ->
  exists s', updateStreamer_k n (resp n) s = Return tt s' /\ log_step s s'.
Proof.
  intros (rec & Hn & Hm & Hrest). rewrite (updateStreamer_k_own s n _ rec Hn).
  bot_unfold. munfold.
  assert (Hid : <[n := set_meta (info_of (resp n)) rec]> (streamers s) = streamers s).
  { apply insert_id. rewrite Hn. f_equal. destruct rec. simpl in *. by subst. }
  destruct (resp n) as [|d]; simpl in *; rewrite Hid.
  - destruct (paused rec); simpl; eexists; (split; [reflexivity|]);
      unfold log_step; destruct s; reflexivity.
  - destruct (paused rec) eqn:Hp; simpl.
    { eexists. split; [reflexivity|]. unfold log_step. destruct s; reflexivity. }
    destruct Hrest as [|(rs & Hrs & Hcond)]; [congruence|].
    destruct d as [|rs']; simpl in *; [done|]. injection Hrs as ->.
    rewrite Hcond. eexists. split; [reflexivity|]. unfold log_step.
    destruct s; reflexivity.
Qed.

Lemma proc_alive_app ps c p :
  exitCode c = None -> proc_alive ps p = true -> proc_alive (ps ++ [c]) p = true.
Proof.
  intros Hc. destruct p as [| |pid]; simpl; [done..|].
  unfold exitCode_of. destruct (ps !! pid) as [c0|] eqn:Hpid.
  - by rewrite (lookup_app_l_Some _ _ _ _ Hpid).
  - intros _. destruct ((ps ++ [c]) !! pid) as [c1|] eqn:H1; [|done].
    apply lookup_app_Some in H1 as [H1|[_ H1]]; [congruence|].
    destruct (pid - length ps) as [|k]; simpl in H1; [|done].
    injection H1 as <-. by rewrite Hc.
Qed.

Lemma proc_alive_new ps c :
  exitCode c = None -> proc_alive (ps ++ [c]) (PChild (length ps)) = true.
Proof.
  intros Hc. simpl. unfold exitCode_of. rewrite list_lookup_middle by done.
  by rewrite Hc.
Qed.

Section Settle.
Context (resp : string -> axios_result).

Lemma updateStreamer_k_tidy l n s s' :
  is_Some (streamers s !! n) ->
  updateStreamer_k n (resp n) s = Return tt s' -> tidy l s -> tidy l s'.
Proof.
  intros [rec Hn] Hu [Hin Hout].
  apply (updateStreamer_k_cases _ _ _ _ rec Hn) in Hu
    as (_ & _ & Hi & [(Hs & Hp & _)|(c & Hrec & Hc & _ & Hp & Hs)]);
    unfold tidy; rewrite Hs, Hp, Hi; split.
  - intros k Hk. destruct (decide (n = k)) as [->|Hne].
    + destruct (Hin k Hk) as [(r & Hr & Hal)|[Hr _]]; [|congruence].
      left. eexists. rewrite lookup_insert_eq. split; [done|]. simpl.
      rewrite Hn in Hr. injection Hr as <-. done.
    + apply (synced_ext _ (streamers s) _ (inherited s));
        [by rewrite lookup_insert_ne|done|by apply Hin].
  - intros k r Hr Hk. destruct (decide (n = k)) as [->|Hne].
    + rewrite lookup_insert_eq in Hr. injection Hr as <-. simpl. by apply (Hout k rec).
    + rewrite lookup_insert_ne in Hr by done. by apply (Hout k r).
  - intros k Hk. destruct (decide (n = k)) as [->|Hne].
    + left. eexists. rewrite lookup_insert_eq. split; [done|]. simpl. intros _.
      by apply proc_alive_new.
    + destruct (Hin k Hk) as [(r & Hr & Hal)|[Hr Hpn]].
      * left. exists r. rewrite lookup_insert_ne by done. split; [done|].
        intros H. by apply proc_alive_app, Hal.
      * right. rewrite lookup_insert_ne by done. split; [done|].
        rewrite (slot_of_ext (streamers s) _ (inherited s) (inherited s) k);
          [done|by rewrite lookup_insert_ne|done].
  - intros k r Hr Hk. destruct (decide (n = k)) as [->|Hne].
    + rewrite lookup_insert_eq in Hr. by injection Hr as <-.
    + rewrite lookup_insert_ne in Hr by done. by apply (Hout k r).
Qed.

Lemma updateStreamer_k_settles n s s' :
  is_Some (streamers s !! n) ->
  updateStreamer_k n (resp n) s = Return tt s' -> settled resp s' n.
Proof.
  intros [rec Hn] Hu.
  apply (updateStreamer_k_cases _ _ _ _ rec Hn) in Hu
    as (_ & _ & _ & [(Hs & Hp & Hrest)|(c & Hrec & Hc & Hst & Hp & Hs)]).
  - eexists. rewrite Hs, lookup_insert_eq. split; [done|]. split; [done|]. exact Hrest.
  - eexists. rewrite Hs, lookup_insert_eq. split; [done|]. split; [done|].
    right. eexists. split; [exact Hst|]. apply andb_false_iff. by right.
Qed.

Lemma updateStreamer_k_keeps_settled n k s s' :
  is_Some (streamers s !! n) ->
  updateStreamer_k n (resp n) s = Return tt s' ->
  settled resp s k -> settled resp s' k.
Proof.
  intros Hn Hu Hk. destruct (decide (n = k)) as [->|Hne].
  - by apply (updateStreamer_k_settles k s).
  - destruct Hk as (r & Hr & H). exists r. split; [|done].
    destruct Hn as [rec Hn].
    apply (updateStreamer_k_cases _ _ _ _ rec Hn) in Hu
      as (_ & _ & _ & [(Hs & _)|(c & _ & _ & _ & _ & Hs)]);
      rewrite Hs; by rewrite lookup_insert_ne.
Qed.

Lemma updateStreamer_k_dom n s s' :
  is_Some (streamers s !! n) ->
  updateStreamer_k n (resp n) s = Return tt s' ->
  dom (streamers s') = dom (streamers s).
Proof.
  intros [rec Hn] Hu.
  assert (Hd : forall r, dom (<[n := r]> (streamers s)) = dom (streamers s)).
  { intros r. rewrite dom_insert_L.
    apply subseteq_union_1_L, singleton_subseteq_l, elem_of_dom. eauto. }
  apply (updateStreamer_k_cases _ _ _ _ rec Hn) in Hu
    as (_ & _ & _ & [(Hs & _)|(c & _ & _ & _ & _ & Hs)]);
    rewrite Hs; by apply Hd.
Qed.

Lemma is_Some_dom_eq (m m' : gmap string Streamer) n :
  dom m' = dom m -> is_Some (m !! n) -> is_Some (m' !! n).
Proof. intros Hd H. apply elem_of_dom. rewrite Hd. by apply elem_of_dom. Qed.

(** The probes of a tick have settled without a rejection. *)
Lemma settle_all_None l ns s s' :
  (forall n, n ∈ ns -> is_Some (streamers s !! n)) ->
  settle_all resp ns s = (None, s') -> tidy l s ->
  tidy l s' /\ (forall n, n ∈ ns -> settled resp s' n) /\
  config s' = config s /\ disk s' = disk s /\
  dom (streamers s') = dom (streamers s).
Proof.
  revert s. induction ns as [|n ns IH]; intros s Hown; simpl.
  - intros [= <-] Ht. split; [done|]. split; [|done]. by intros n H%elem_of_nil.
  - destruct (updateStreamer_k n (resp n) s) as [[] s1|] eqn:Hu; [|done].
    intros Hs Ht.
    assert (Hn : is_Some (streamers s !! n)) by apply Hown, list_elem_of_here.
    pose proof (updateStreamer_k_dom n s s1 Hn Hu) as Hdom1.
    assert (Hown1 : forall k, k ∈ ns -> is_Some (streamers s1 !! k)).
    { intros k Hk. apply (is_Some_dom_eq (streamers s)); [done|].
      by apply Hown, list_elem_of_further. }
    destruct (IH s1 Hown1 Hs) as (Ht' & Hset & Hc & Hd & Hdom).
    { by apply (updateStreamer_k_tidy l n s). }
    destruct Hn as [rec Hrec].
    pose proof (updateStreamer_k_cases _ _ _ _ rec Hrec Hu) as (Hc1 & Hd1 & _ & _).
    split; [done|]. split; [|split; [congruence|split; [congruence|]]].
    + intros k Hk. apply elem_of_cons in Hk as [Hk|Hk]; [subst k|by apply Hset].
      assert (Hn : settled resp s1 n) by (apply (updateStreamer_k_settles n s); eauto).
      clear -Hn Hs Hown1. revert s1 Hn Hs Hown1.
      induction ns as [|m ns IHn]; intros s1 Hn; simpl.
      * by intros [= <-].
      * destruct (updateStreamer_k m (resp m) s1) as [[] s2|] eqn:Hu; [|done].
        intros Hs Hown1.
        assert (Hm : is_Some (streamers s1 !! m)) by apply Hown1, list_elem_of_here.
        apply (IHn s2); [by apply (updateStreamer_k_keeps_settled m n s1)|done|].
        intros k Hk. apply (is_Some_dom_eq (streamers s1)).
        -- by apply (updateStreamer_k_dom m).
        -- by apply Hown1, list_elem_of_further.
    + by rewrite Hdom.
Qed.

(** When every probe is settled already, they settle again and only the
    log has grown. *)
Lemma settle_all_settled ns s :
  (forall n, n ∈ ns -> settled resp s n) ->
  exists s', settle_all resp ns s = (None, s') /\ log_step s s'.
Proof.
  revert s. induction ns as [|n ns IH]; intros s Hset; simpl.
  - exists s. split; [done|]. unfold log_step. by destruct s.
  - destruct (updateStreamer_k_settled resp n s) as (s1 & -> & Hst1).
    { apply Hset, list_elem_of_here. }
    destruct (IH s1) as (s2 & -> & Hst2).
    { intros k Hk. unfold settled. rewrite Hst1. simpl.
      by apply Hset, list_elem_of_further. }
    exists s2. split; [done|]. unfold log_step in *.
    rewrite Hst2 at 1. rewrite Hst1 at 1. by destruct s.
Qed.
End Settle.

(** *** Two ticks in a row *)

Lemma tick_Return resp s b s1 :
  tick resp s = Return b s1 ->
  exists names sa sb,
    run_sync s = Return names sa /\
    settle_all resp names sa = (None, sb) /\
    run_finish sb = Return b s1.
Proof.
  unfold tick, run_resume. munfold.
  destruct (run_sync s) as [names sa|] eqn:Hr; [|done].
  destruct (settle_all resp names sa) as [[e|] sb] eqn:Hs; [done|].
  intros H. by exists names, sa, sb.
Qed.

Lemma run_finish_frame s b s' :
  run_finish s = Return b s' ->
  streamers s' = streamers s /\ procs s' = procs s /\
  config s' = config s /\ disk s' = disk s /\ inherited s' = inherited s.
Proof.
  unfold run_finish, get_config, setTimeout. munfold.
  destruct (config s) eqn:Hc; simpl; [|done]. intros [= <- <-]. done.
Qed.

(** C6: a tick has completed; the same tick runs again at once, with
    the configuration file and the answers of the probes unchanged. The
    second tick completes too, starts no process, and leaves every
    record as the first tick left it: an entity that the first tick
    made recording is recording already when its probe settles again. *)
Theorem C6_second_tick_starts_nothing
    (resp : string -> axios_result) (s s1 : State) (b : bool) :
  tick resp s = Return b s1 ->
  exists s2,
    tick resp s1 = Return true s2 /\
    procs s2 = procs s1 /\ streamers s2 = streamers s1.
Proof.
  intros Htick.
  apply tick_Return in Htick as (names & sa & sb & Hrun & Hset & Hfin).
  destruct (run_sync_tidy s names sa Hrun) as (c & l & Hc & Hl & Hd & Ht & Hnames).
  destruct (settle_all_None resp l names sa sb) as (Htb & Hsettled & Hcb & Hdb & Hdom);
    [intros n Hn; apply elem_of_Object_keys; by rewrite <- Hnames|done|done|].
  destruct (run_finish_frame sb b s1 Hfin) as (Hs1 & Hp1 & Hc1 & Hd1 & Hi1).
  assert (Ht1 : tidy l s1) by (unfold tidy; by rewrite Hs1, Hp1, Hi1).
  destruct (run_sync_again s1 c l) as (s1' & Hrun' & Hs1' & Hp1' & Hc1' & _);
    [congruence|done|congruence|done|].
  assert (Hkeys : Object_keys (streamers s1) = names).
  { unfold Object_keys in *. by rewrite Hnames, Hs1, Hdom. }
  rewrite Hkeys in Hrun'.
  destruct (settle_all_settled resp names s1') as (s2' & Hset' & Hlog).
  { intros n Hn. unfold settled. rewrite Hs1', Hs1. by apply Hsettled. }
  assert (Hc2 : config s2' = Some c) by (rewrite Hlog; simpl; congruence).
  destruct (run_finish_Return s2' c Hc2) as [ms Hfin'].
  eexists. unfold tick, run_resume. munfold. rewrite Hrun', Hset', Hfin'.
  split; [reflexivity|]. simpl. rewrite Hlog. simpl. by rewrite Hp1', Hs1'.
Qed.

Lemma C6_second_tick_starts_nothing_witness :
  exists s2,
    tick (fun _ => AxiosResolved (DObject (Some "public")))
         (state_of (tick (fun _ => AxiosResolved (DObject (Some "public"))) st_idle))
    = Return true s2 /\
    length (procs s2) = 1.
Proof.
  destruct (C6_second_tick_starts_nothing
              (fun _ => AxiosResolved (DObject (Some "public"))) st_idle
              (state_of (tick (fun _ => AxiosResolved (DObject (Some "public"))) st_idle))
              true) as (s2 & Ht & Hp & _).
  - vm_compute. reflexivity.
  - exists s2. split; [exact Ht|]. rewrite Hp. vm_compute. reflexivity.
Defined.

(** ** Further properties of the tick *)

Lemma run_sync_phases s names s1 :
  run_sync s = Return names s1 ->
  exists sb l sd,
    streamers sb = streamers s /\ procs sb = procs s /\ inherited sb = inherited s /\
    configured s1 = l /\
    sync_registry l sb = Return tt sd /\ prune_registry l sd = Return tt s1 /\
    names = Object_keys (streamers s1).
Proof.
  intros Hrun.
  destruct (run_sync_config s names s1 Hrun) as (c & l & Hc & Hl & _ & Hn).
  apply run_sync_Return in Hrun as (sa & sb & l' & sd & Ha & Hb & Hg & Hsy & Hpr & _).
  apply get_config_streamers_Return in Hg as (_ & c' & Hc' & Hl').
  set (P := fun s' : State => streamers s' = streamers s /\ procs s' = procs s
                              /\ inherited s' = inherited s).
  assert (HPb : P sb).
  { apply (preserved_on_return P reloadConfig sa tt sb); [bot_unfold; pres; done|exact Hb|].
    apply (preserved_on_return P checkConfigExists
             (set_timeout TFalse (set_running true s)) tt sa);
      [bot_unfold; pres; done|exact Ha|]. done. }
  destruct HPb as (Hs & Hp & Hi).
  destruct (loops_preserve_config (Some c') l') as [Hd1 He1].
  assert (Hc1 : config s1 = Some c').
  { apply (preserved_on_return _ _ _ _ _ He1 Hpr).
    by apply (preserved_on_return _ _ _ _ _ Hd1 Hsy). }
  exists sb, l', sd. repeat (split; [done|]). split; [|done].
  unfold configured. by rewrite Hc1, Hl'.
Qed.

(** X1: an entity that has a record, is not recording and is not
    configured when [run] syncs the registry has no record left when
    [run] reaches its [await], and no probe is started for it. *)
Theorem X1_unconfigured_idle_pruned
    (s s1 : State) (names : list string) (E : string) (r : Streamer) :
  run_sync s = Return names s1 ->
  streamers s !! E = Some r -> recording r = false -> E ∉ configured s1 ->
  streamers s1 !! E = None /\ E ∉ names.
Proof.
  intros Hrun Hr Hrec HE.
  apply run_sync_phases in Hrun
    as (sb & l & sd & Hs & _ & _ & Hl & Hsy & Hpr & ->).
  rewrite Hl in HE.
  destruct (sync_registry_spec l sb) as (sd' & Hsy' & _ & _ & Hout & _).
  rewrite Hsy in Hsy'. injection Hsy' as <-.
  destruct (prune_registry_spec l sd) as (s1' & Hpr' & _ & _ & Hkeep & _).
  rewrite Hpr in Hpr'. injection Hpr' as <-.
  assert (Hnone : streamers s1 !! E = None).
  { destruct (streamers s1 !! E) as [r'|] eqn:H1; [|done].
    destruct (Hkeep E r' H1) as [Hd Hrec'].
    rewrite (Hout E HE), Hs, Hr in Hd. injection Hd as <-.
    rewrite (Hrec' HE) in Hrec. discriminate. }
  split; [exact Hnone|].
  rewrite elem_of_Object_keys, Hnone. by intros [? ?].
Qed.

Lemma X1_unconfigured_idle_pruned_witness :
  streamers st_stale !! "bob" = Some (mkStreamer false true PFalse IFalse) /\
  streamers (state_of (run_sync st_stale)) !! "bob" = None.
Proof.
  split; [reflexivity|].
  apply (X1_unconfigured_idle_pruned st_stale (state_of (run_sync st_stale))
           ["alice"] "bob" (mkStreamer false true PFalse IFalse)).
  - vm_compute. reflexivity.
  - reflexivity.
  - reflexivity.
  - vm_compute. intros H. apply list_elem_of_singleton in H. discriminate.
Defined.

(** X2: a configured name that has no record, and that [this.streamers]
    does not inherit, has the default record when [run] reaches its
    [await], and a probe is started for it. *)
Theorem X2_configured_gets_record
    (s s1 : State) (names : list string) (E : string) :
  run_sync s = Return names s1 ->
  E ∈ configured s1 -> streamers s !! E = None -> ~ inherits s E ->
  streamers s1 !! E = Some (mkStreamer false false PNull IFalse) /\ E ∈ names.
Proof.
  intros Hrun HE Hnone Hinh.
  apply run_sync_phases in Hrun
    as (sb & l & sd & Hs & _ & Hi & Hl & Hsy & Hpr & ->).
  rewrite Hl in HE.
  destruct (sync_registry_lookup l sb) as (sd' & Hsy' & _ & Hlook).
  rewrite Hsy in Hsy'. injection Hsy' as <-.
  destruct (prune_registry_spec l sd) as (s1' & Hpr' & _ & Hin & _).
  rewrite Hpr in Hpr'. injection Hpr' as <-.
  assert (Hrec : streamers s1 !! E = Some (mkStreamer false false PNull IFalse)).
  { rewrite (Hin E HE), Hlook, (decide_True (P := E ∈ l)) by done.
    unfold sync_slot. rewrite slot_of_undefined; [done|by rewrite Hs|].
    unfold inherits in *. by rewrite Hi. }
  split; [exact Hrec|]. rewrite elem_of_Object_keys, Hrec. eauto.
Qed.

Lemma X2_configured_gets_record_witness :
  streamers (state_of (run_sync st_added)) !! "alice"
  = Some (mkStreamer false false PNull IFalse).
Proof.
  apply (X2_configured_gets_record st_added (state_of (run_sync st_added))
           ["alice"] "alice").
  - vm_compute. reflexivity.
  - vm_compute. apply list_elem_of_here.
  - reflexivity.
  - intros [H|[H _]]; [|discriminate].
    vm_compute in H. repeat (inversion H as [|? ? ? H']; clear H; rename H' into H).
Defined.

(** X3: when the configuration file is not JSON, [run] throws the
    exception of [JSON.parse] before it touches the registry; the bot is
    left flagged as running with no timer of its own, and the tick
    schedules no successor. *)
Theorem X3_unreadable_config_ends_loop (s : State) (resp : string -> axios_result) :
  disk s = Some Garbage ->
  exists msg,
    run_sync s = Throw (SyntaxError msg) (set_timeout TFalse (set_running true s)) /\
    tick resp s = Throw (SyntaxError msg) (set_timeout TFalse (set_running true s)).
Proof.
  intros Hd. exists "Unexpected token in JSON".
  assert (H : run_sync s = Throw (SyntaxError "Unexpected token in JSON")
                                 (set_timeout TFalse (set_running true s))).
  { assert (Hd' : disk (set_timeout TFalse (set_running true s)) = Some Garbage)
      by exact Hd.
    unfold run_sync, checkConfigExists, reloadConfig. munfold.
    rewrite Hd'. simpl. rewrite Hd. reflexivity. }
  split; [exact H|]. unfold tick. munfold. by rewrite H.
Qed.

Lemma X3_unreadable_config_ends_loop_witness :
  returned (tick (fun _ => AxiosRejected) st_garbage) = false /\
  timers (state_of (tick (fun _ => AxiosRejected) st_garbage)) = timers st_garbage /\
  timeout (state_of (tick (fun _ => AxiosRejected) st_garbage)) = TFalse.
Proof.
  destruct (X3_unreadable_config_ends_loop st_garbage (fun _ => AxiosRejected))
    as (msg & _ & H); [reflexivity|].
  rewrite H. repeat split.
Defined.

(** X4: [pause] on a running bot that holds a pending timer cancels it:
    the timer is no longer pending, so that it never fires, and the bot
    is flagged as not running. *)
Theorem X4_pause_cancels_pending_tick (s : State) (id : nat) :
  running s = true -> timeout s = TTimer id ->
  exists s',
    pause s = Return true s' /\ running s' = false /\
    timers s' = delete id (timers s) /\
    streamers s' = streamers s /\ procs s' = procs s /\
    step (TimerFired id) s' = None.
Proof.
  intros Hr Ht. unfold pause, clear_own_timeout, log_info. munfold.
  rewrite Hr. simpl. rewrite Ht. eexists. split; [reflexivity|]. simpl.
  repeat (split; [reflexivity|]). by rewrite lookup_delete_eq.
Qed.

Lemma X4_pause_cancels_pending_tick_witness :
  exists s', pause st_idle = Return true s' /\ running s' = false /\
             step (TimerFired 0) s' = None.
Proof.
  destruct (X4_pause_cancels_pending_tick st_idle 0) as (s' & Hp & Hr & _ & _ & _ & Hs).
  - reflexivity.
  - reflexivity.
  - exists s'. repeat split; assumption.
Defined.

(** X5: the probe of an entity answers "public", the entity has a
    record that is neither paused nor recording, and the configuration
    names a recorder: [updateStreamer] starts one process, with the
    configured arguments followed by the URL of the entity, and the
    record holds its handle and is flagged as recording. *)
Theorem X5_live_entity_is_started
    (s : State) (n : string) (rec : Streamer) (c : Config) (cmd : string) :
  streamers s !! n = Some rec -> paused rec = false -> recording rec = false ->
  config s = Some c -> recordCmd c = Some cmd -> cmd <> "" ->
  exists s',
    updateStreamer_k n (AxiosResolved (DObject (Some "public"))) s = Return tt s' /\
    procs s'
    = procs s ++ [mkChild cmd
                    (default [] (recordCmdArgs c) ++ ["https://chaturbate.com/" +:+ n +:+ "/"])
                    n None [] false] /\
    streamers s'
    = <[n := mkStreamer true false (PChild (length (procs s)))
                        (IData (DObject (Some "public")))]> (streamers s).
Proof.
  intros Hn Hp Hrec Hc Hcmd Hne.
  rewrite (updateStreamer_k_own s n _ rec Hn).
  bot_unfold. munfold. simpl. rewrite Hp, Hrec. simpl. rewrite Hc. simpl.
  rewrite Hcmd. destruct (decide (cmd = "")) as [|_]; [done|]. simpl.
  eexists. split; [reflexivity|]. simpl. split; [reflexivity|].
  by rewrite insert_insert_eq.
Qed.

Lemma X5_live_entity_is_started_witness :
  exists s',
    updateStreamer_k "alice" (AxiosResolved (DObject (Some "public"))) st_idle
    = Return tt s' /\
    procs s' = [child_alice] /\
    streamers s' !! "alice"
    = Some (mkStreamer true false (PChild 0) (IData (DObject (Some "public")))).
Proof.
  destruct (X5_live_entity_is_started st_idle "alice"
              (mkStreamer false false PNull IFalse) cfg_alice "yt-dlp")
    as (s' & Hu & Hp & Hs).
  - reflexivity.
  - reflexivity.
  - reflexivity.
  - reflexivity.
  - reflexivity.
  - discriminate.
  - exists s'. split; [exact Hu|]. split; [exact Hp|].
    rewrite Hs. apply lookup_insert_eq.
Defined.

(** X6: [updateStreamer] on an entity with a record starts a process
    only when the entity is not paused, is not recording already, and
    its probe has answered "public". *)
Theorem X6_start_needs_live_idle_unpaused
    (s s' : State) (n : string) (rec : Streamer) (r : axios_result) :
  streamers s !! n = Some rec ->
  updateStreamer_k n r s = Return tt s' ->
  procs s' <> procs s ->
  paused rec = false /\ recording rec = false /\
  r = AxiosResolved (DObject (Some "public")).
Proof.
  intros Hn. rewrite (updateStreamer_k_own s n r rec Hn).
  bot_unfold. munfold.
  destruct r as [|d]; simpl.
  - destruct (paused rec); intros [= <-] H; by destruct H.
  - destruct (paused rec) eqn:Hp; simpl; [intros [= <-] H; by destruct H|].
    destruct d as [|rs]; simpl; [done|].
    destruct (bool_decide (rs = Some "public")) eqn:Hpub; simpl;
      [|intros [= <-] H; by destruct H].
    destruct (recording rec) eqn:Hrec; simpl; [intros [= <-] H; by destruct H|].
    apply bool_decide_eq_true in Hpub as ->. done.
Qed.

Lemma X6_start_needs_live_idle_unpaused_witness :
  paused (mkStreamer false false PNull IFalse) = false /\
  procs (state_of (updateStreamer_k "alice" (AxiosResolved (DObject (Some "public")))
                     st_idle)) = [child_alice].
Proof.
  destruct (X6_start_needs_live_idle_unpaused st_idle
              (state_of (updateStreamer_k "alice"
                           (AxiosResolved (DObject (Some "public"))) st_idle))
              "alice" (mkStreamer false false PNull IFalse)
              (AxiosResolved (DObject (Some "public")))) as (Hp & _ & _).
  - reflexivity.
  - vm_compute. reflexivity.
  - vm_compute. discriminate.
  - split; [exact Hp|]. vm_compute. reflexivity.
Defined.

(** ** Further properties of the observers *)

(** X7: a process exits while the entity it was spawned for is
    configured and has a record. The [exit] observer returns, sets
    [recording] and [proc] of that record to [false], keeps [paused] and
    [meta], and touches no other record and no process. *)
Theorem X7_exit_resets_configured
    (s : State) (pid : nat) (c : ChildProcess) (code : option Z)
    (cfg : Config) (l : list string) (r : Streamer) :
  procs s !! pid = Some c ->
  config s = Some cfg -> cfg_streamers cfg = Some l -> spawned_for c ∈ l ->
  streamers s !! spawned_for c = Some r ->
  exists s',
    step (ProcExit pid code) s = Some s' /\
    streamers s' = <[spawned_for c := mkStreamer false (paused r) PFalse (meta r)]>
                     (streamers s) /\
    procs s' = alter (mark_reported code) pid (procs s).
Proof.
  intros Hpid Hc Hl Hin Hr. simpl. rewrite Hpid.
  unfold on_exit, reset_or_delete, get_config_streamers, get_config, log_info.
  munfold. simpl. rewrite Hc. simpl. rewrite Hl. simpl.
  rewrite (bool_decide_eq_true_2 _ Hin).
  erewrite assign_own by (simpl; exact Hr). simpl.
  erewrite assign_own by (simpl; apply lookup_insert_eq). simpl.
  eexists. split; [reflexivity|]. simpl. by rewrite insert_insert_eq.
Qed.

Lemma X7_exit_resets_configured_witness :
  exists s',
    step (ProcExit 0 (Some 0%Z)) st_recording = Some s' /\
    streamers s' !! "alice" = Some (mkStreamer false false PFalse IFalse).
Proof.
  destruct (X7_exit_resets_configured st_recording 0 child_alice (Some 0%Z)
              cfg_alice ["alice"] (mkStreamer true false (PChild 0) IFalse))
    as (s' & Hs & Hr & _).
  - reflexivity.
  - reflexivity.
  - reflexivity.
  - apply list_elem_of_here.
  - reflexivity.
  - exists s'. split; [exact Hs|]. rewrite Hr. apply lookup_insert_eq.
Defined.

(** X8: a process reports an error while the entity it was spawned for
    is configured and has a record. The [error] observer sends SIGINT
    to that process, then resets the record as the [exit] observer
    does. *)
Theorem X8_error_kills_and_resets
    (s : State) (pid : nat) (c : ChildProcess)
    (cfg : Config) (l : list string) (r : Streamer) :
  procs s !! pid = Some c ->
  config s = Some cfg -> cfg_streamers cfg = Some l -> spawned_for c ∈ l ->
  streamers s !! spawned_for c = Some r ->
  exists s',
    step (ProcError pid) s = Some s' /\
    streamers s' = <[spawned_for c := mkStreamer false (paused r) PFalse (meta r)]>
                     (streamers s) /\
    procs s' !! pid
    = Some (add_kill "SIGINT" (mark_reported (exitCode c) c)).
Proof.
  intros Hpid Hc Hl Hin Hr. simpl. rewrite Hpid.
  unfold on_error, reset_or_delete, get_config_streamers, get_config, log_info, kill.
  munfold. simpl. rewrite Hc. simpl. rewrite Hl. simpl.
  rewrite (bool_decide_eq_true_2 _ Hin).
  erewrite assign_own by (simpl; exact Hr). simpl.
  erewrite assign_own by (simpl; apply lookup_insert_eq). simpl.
  eexists. split; [reflexivity|]. simpl. rewrite insert_insert_eq.
  split; [reflexivity|].
  by rewrite !list_lookup_alter_eq, Hpid.
Qed.

Lemma X8_error_kills_and_resets_witness :
  exists s',
    step (ProcError 0) st_recording = Some s' /\
    streamers s' !! "alice" = Some (mkStreamer false false PFalse IFalse) /\
    (kills <$> procs s' !! 0) = Some ["SIGINT"].
Proof.
  destruct (X8_error_kills_and_resets st_recording 0 child_alice
              cfg_alice ["alice"] (mkStreamer true false (PChild 0) IFalse))
    as (s' & Hs & Hr & Hk).
  - reflexivity.
  - reflexivity.
  - reflexivity.
  - apply list_elem_of_here.
  - reflexivity.
  - exists s'. split; [exact Hs|]. split.
    + rewrite Hr. apply lookup_insert_eq.
    + rewrite Hk. reflexivity.
Defined.

(** X9: in every state the bot reaches, a record that holds the handle
    of a process is flagged as recording, the process was spawned for
    the name of that record, and no other record holds the handle. *)
Theorem X9_handle_owned_by_one_record
    (evs : list event) (d e : option file) (w : bool) (s : State) :
  steps evs (init d e w) = Some s ->
  forall n r pid, streamers s !! n = Some r -> proc r = PChild pid ->
    recording r = true /\
    (exists c, procs s !! pid = Some c /\ spawned_for c = n) /\
    forall n' r', streamers s !! n' = Some r' -> proc r' = PChild pid -> n' = n.
Proof.
  intros Hs n r pid Hr Hp.
  destruct (steps_Inv evs (init d e w) s (init_Inv d e w) Hs) as (_ & Ho & Hh).
  split; [by apply (Hh n r pid)|]. split; [by apply (Ho n r pid)|].
  intros n' r' Hr' Hp'.
  destruct (Ho n r pid Hr Hp) as (c & Hc & <-).
  destruct (Ho n' r' pid Hr' Hp') as (c' & Hc' & <-). congruence.
Qed.

Lemma X9_handle_owned_by_one_record_witness :
  recording (mkStreamer true false (PChild 0) (IData (DObject (Some "public")))) = true /\
  exists c, procs st_alice_live !! 0 = Some c /\ spawned_for c = "alice".
Proof.
  destruct (X9_handle_owned_by_one_record trace_alice_live
              (Some (Json (Some cfg_alice))) None true st_alice_live
              ltac:(vm_compute; reflexivity) "alice"
              (mkStreamer true false (PChild 0) (IData (DObject (Some "public")))) 0)
    as (Hrec & Hc & _).
  - vm_compute. reflexivity.
  - reflexivity.
  - split; [exact Hrec|exact Hc].
Defined.

(** ** Further properties of the loop and of the requests *)




(** X11: a supplied name that is not configured is added:
    [addStreamer] cancels the pending timer, appends the name to the
    configured list, writes the configuration to the file and returns
    [true]; on a running bot it then starts a tick at once, and on a bot
    that is not running it does nothing else. *)
Theorem X11_add_appends_and_persists
    (s : State) (c : Config) (n : string) :
  config s = Some c -> n <> "" -> n ∉ default [] (cfg_streamers c) ->
  writable s = true ->
  exists s1,
    config s1 = Some (with_streamers (default [] (cfg_streamers c) ++ [n]) c) /\
    disk s1 = Some (Json (config s1)) /\
    streamers s1 = streamers s /\ procs s1 = procs s /\ running s1 = running s /\
    timers s1 = match timeout s with
                | TTimer id => delete id (timers s)
                | TNull | TFalse => timers s
                end /\
    addStreamer (Some n) s
    = Return true (if running s then state_of (run_sync s1) else s1).
Proof.
  intros Hc Hn Hin Hw.
  set (c' := with_streamers (default [] (cfg_streamers c) ++ [n]) c).
  exists (set_disk (Some (Json (Some c')))
            (set_config (Some c')
               match timeout s with
               | TTimer id => set_timers (delete id (timers s)) (next_timer s) s
               | TNull | TFalse => s
               end)).
  unfold addStreamer, require_name, get_config, clear_own_timeout, writeConfig, call_run.
  munfold. destruct (decide (n = "")) as [|_]; [done|]. rewrite Hc. simpl.
  rewrite (bool_decide_eq_false_2 _ Hin).
  destruct (timeout s) eqn:Ht; simpl; rewrite Hw; simpl;
    repeat (split; [reflexivity|]); by destruct (running s).
Qed.

Lemma X11_add_appends_and_persists_witness :
  exists s',
    addStreamer (Some "bob") st_added = Return true s' /\
    config s' = Some (mkConfig (Some ["alice"; "bob"]) (Some 60%Z) (Some "yt-dlp") None) /\
    disk s' = Some (Json (config s')).
Proof.
  destruct (X11_add_appends_and_persists st_added cfg_alice "bob")
    as (s' & Hc & Hd & _ & _ & _ & _ & Ha).
  - reflexivity.
  - discriminate.
  - simpl. intros H. apply list_elem_of_singleton in H. discriminate.
  - reflexivity.
  - exists s'. split; [exact Ha|]. split; [exact Hc|exact Hd].
Defined.

(** X12: a supplied name that is configured is removed: [removeStreamer]
    takes every occurrence of the name out of the configured list,
    writes the configuration to the file and returns [true]; it leaves
    the registry, the processes and the timers as they were. *)
Theorem X12_remove_filters_and_persists
    (s : State) (c : Config) (n : string) :
  config s = Some c -> n <> "" -> n ∈ default [] (cfg_streamers c) ->
  writable s = true ->
  exists s',
    removeStreamer (Some n) s = Return true s' /\
    config s' = Some (with_streamers
                        (filter (fun x => x ≠ n) (default [] (cfg_streamers c))) c) /\
    disk s' = Some (Json (config s')) /\
    streamers s' = streamers s /\ procs s' = procs s /\
    timers s' = timers s /\ timeout s' = timeout s /\ running s' = running s.
Proof.
  intros Hc Hn Hin Hw.
  unfold removeStreamer, require_name, get_config, writeConfig.
  munfold. destruct (decide (n = "")) as [|_]; [done|]. rewrite Hc. simpl.
  rewrite (bool_decide_eq_true_2 _ Hin). simpl. rewrite Hw.
  eexists. split; [reflexivity|]. done.
Qed.

Lemma X12_remove_filters_and_persists_witness :
  exists s',
    removeStreamer (Some "alice") st_recording = Return true s' /\
    config s' = Some (mkConfig (Some []) (Some 60%Z) (Some "yt-dlp") None) /\
    streamers s' = streamers st_recording.
Proof.
  destruct (X12_remove_filters_and_persists st_recording cfg_alice "alice")
    as (s' & Ha & Hc & _ & Hs & _).
  - reflexivity.
  - discriminate.
  - simpl. apply list_elem_of_here.
  - reflexivity.
  - exists s'. split; [exact Ha|]. split; [|exact Hs].
    rewrite Hc. vm_compute. reflexivity.
Defined.

(** ** Shutdown *)

Lemma signalled_on_refl c : signalled_on c c.
Proof. by repeat split. Qed.

Lemma signals_only_refl ps : signals_only ps ps.
Proof. split; [done|]. intros pid c Hc. exists c. split; [done|apply signalled_on_refl]. Qed.

Lemma signals_only_trans ps1 ps2 ps3 :
  signals_only ps1 ps2 -> signals_only ps2 ps3 -> signals_only ps1 ps3.
Proof.
  intros [Hl1 H1] [Hl2 H2]. split; [congruence|].
  intros pid c Hc. destruct (H1 pid c Hc) as (c2 & Hc2 & S12).
  destruct (H2 pid c2 Hc2) as (c3 & Hc3 & S23).
  exists c3. split; [done|].
  destruct S12 as (? & ? & ? & ? & ? & K12), S23 as (? & ? & ? & ? & ? & K23).
  repeat split; try congruence. auto.
Qed.

Lemma signals_only_kill ps pid sig :
  signals_only ps (alter (add_kill sig) pid ps) /\
  forall c, ps !! pid = Some c ->
    exists c', alter (add_kill sig) pid ps !! pid = Some c' /\ sig ∈ kills c'.
Proof.
  split; [split|].
  - by rewrite length_alter.
  - intros q c Hq. destruct (decide (pid = q)) as [->|Hne].
    + rewrite list_lookup_alter_eq, Hq. eexists. split; [reflexivity|].
      repeat split. intros s0 Hs0. simpl. apply elem_of_app. by left.
    + rewrite list_lookup_alter_ne by done. exists c. split; [done|apply signalled_on_refl].
  - intros c Hc. rewrite list_lookup_alter_eq, Hc. eexists. split; [reflexivity|].
    simpl. apply elem_of_app. right. apply list_elem_of_here.
Qed.

(** The loop of [stop] over names whose record holds a handle. *)
Lemma stop_loop_spec (ks : list string) (s : State) :
  (forall k, k ∈ ks -> exists r pid, streamers s !! k = Some r /\ proc r = PChild pid) ->
  exists s',
    forEach ks stop_one s = Return tt s' /\
    s' = set_procs (procs s') s /\
    signals_only (procs s) (procs s') /\
    forall k r pid c, k ∈ ks -> streamers s !! k = Some r -> proc r = PChild pid ->
      procs s !! pid = Some c ->
      exists c', procs s' !! pid = Some c' /\ "SIGINT" ∈ kills c'.
Proof.
  revert s. induction ks as [|k ks IH]; intros s Hks; simpl.
  - exists s. split; [done|]. split; [by destruct s|].
    split; [apply signals_only_refl|]. by intros k r pid c H%elem_of_nil.
  - destruct (Hks k) as (r & pid & Hr & Hp); [apply list_elem_of_here|].
    munfold. unfold stop_one at 1. munfold.
    rewrite (get_streamer_own s k "proc" r Hr), Hp. unfold kill. munfold.
    set (s1 := set_procs (alter (add_kill "SIGINT") pid (procs s)) s).
    destruct (signals_only_kill (procs s) pid "SIGINT") as [Hk1 Hk2].
    destruct (IH s1) as (s2 & -> & Hs2 & Hsig & Hin).
    { intros j Hj. apply Hks. by apply list_elem_of_further. }
    exists s2. split; [done|]. split; [by rewrite Hs2|].
    split; [by apply (signals_only_trans _ (procs s1))|].
    intros j rj pj cj Hj Hrj Hpj Hcj.
    apply elem_of_cons in Hj as [Hj|Hj].
    + subst j. rewrite Hr in Hrj. injection Hrj as <-.
      rewrite Hp in Hpj. injection Hpj as <-.
      destruct (Hk2 cj Hcj) as (c1 & Hc1 & Hsig1).
      destruct Hsig as [_ Hsig]. destruct (Hsig pid c1 Hc1) as (c2 & Hc2 & S).
      exists c2. split; [done|]. by apply S.
    + destruct Hk1 as [_ Hk1]. destruct (Hk1 pj cj Hcj) as (c1 & Hc1 & _).
      by apply (Hin j rj pj c1).
Qed.

(** X13: on SIGINT or SIGTERM, [stop] returns (the Node process then
    exits: there is no next state). It has flagged the bot as not
    running, cancelled the pending timer of a running bot, and sent
    SIGINT to the process of every record that holds a handle; it has
    only added signals to the processes, and left the registry as it
    was. *)
Theorem X13_stop_signals_every_handle (s : State) :
  exists s',
    stop s = Return tt s' /\ step StopSignal s = None /\
    running s' = false /\ streamers s' = streamers s /\
    timers s' = (if running s then
                   match timeout s with
                   | TTimer id => delete id (timers s)
                   | TNull | TFalse => timers s
                   end
                 else timers s) /\
    signals_only (procs s) (procs s') /\
    forall n r pid c, streamers s !! n = Some r -> proc r = PChild pid ->
      procs s !! pid = Some c ->
      exists c', procs s' !! pid = Some c' /\ "SIGINT" ∈ kills c'.
Proof.
  assert (Hstop : exists s0,
            streamers s0 = streamers s /\ procs s0 = procs s /\ running s0 = false /\
            timers s0 = (if running s then
                           match timeout s with
                           | TTimer id => delete id (timers s)
                           | TNull | TFalse => timers s
                           end
                         else timers s) /\
            stop s = (forEach (filter (fun name => has_proc (streamers s0) name = true)
                                 (Object_keys (streamers s0))) stop_one;;
                      log_info "Successfully stopped") s0).
  { set (sl := set_log (log s ++ [LogInfo "Caught stop signal, stopping"]) s).
    exists (if running s then
              set_running false
                match timeout s with
                | TTimer id => set_timers (delete id (timers s)) (next_timer s) sl
                | TNull | TFalse => sl
                end
            else sl).
    unfold stop, clear_own_timeout, log_info. munfold. simpl.
    destruct (running s) eqn:Hr; simpl.
    - destruct (timeout s); simpl; repeat (split; [reflexivity|]); reflexivity.
    - repeat (split; [try reflexivity; try exact Hr|]). reflexivity. }
  destruct Hstop as (s0 & Hs0 & Hp0 & Hr0 & Ht0 & Heq).
  destruct (stop_loop_spec
              (filter (fun name => has_proc (streamers s0) name = true)
                 (Object_keys (streamers s0))) s0) as (s1 & Hloop & Hs1 & Hsig & Hin).
  { intros k [Hk _]%list_elem_of_filter. unfold has_proc in Hk.
    destruct (streamers s0 !! k) as [r|]; [|done].
    destruct (proc r) as [| |pid] eqn:Hp; try done. by exists r, pid. }
  assert (Hret : stop s = Return tt (set_log (log s1 ++ [LogInfo "Successfully stopped"]) s1)).
  { rewrite Heq. munfold. rewrite Hloop. reflexivity. }
  eexists. split; [exact Hret|].
  split; [simpl; by rewrite Hret|]. simpl.
  rewrite Hs1. simpl. split; [done|]. split; [done|]. split; [done|].
  rewrite <- Hp0. split; [done|].
  intros n r pid c Hr Hp Hc. rewrite <- Hs0 in Hr.
  apply (Hin n r pid c); [|done..].
  apply list_elem_of_filter. split.
  - unfold has_proc. by rewrite Hr, Hp.
  - apply elem_of_Object_keys. eauto.
Qed.
